(** * Expense tracker: a shallow embedding of [main.py] and its properties

    The program is a small ledger server: [add_expense] validates its
    arguments and inserts a row into the [expenses] table, [list_expenses]
    runs a date-range query, [summarize] runs a grouped aggregate query.

    Conventions of the embedding.
    - A Python [str] is a [string]; a character is a code point below 256,
      ordered by its code (the order SQLite's BINARY collation gives to the
      UTF-8 encodings).  On these characters the regular expression class
      [\d] is exactly [0-9].  A string with a character from U+0100 on is
      outside the model: there [\d] and [int] also take the other decimal
      digits of Unicode, so the parser accepts dates written with them.
    - A Python [float] is a primitive binary64 [float]; a finite one with
      mantissa [m] and exponent [e] stands for the real number [m * 2^e].
    - The table is the list of its rows in rowid order together with the
      AUTOINCREMENT counter; the operations that read take the table and
      return a response, [add_expense] returns the response and the new
      table.
    - SQLite turns a NaN into NULL, both when a parameter is bound and when
      an aggregate is returned; a NULL is [None].
    - SUM and [sum] add binary64 numbers one after the other, in the order
      of the rows (recent versions of SQLite and of CPython carry a
      compensation term along, which can change the last bits of a total);
      where SQL leaves the order of equal keys open the model follows
      SQLite.
    - The store is modelled in working order: faults of the storage medium
      (I/O errors, a full disk) are outside the model. *)

From Stdlib Require Import ZArith List String Ascii Bool Lia.
From Stdlib Require Import Floats Permutation Sorted DecimalString.
From Stdlib Require Reals Lra.
Import ListNotations.

Local Open Scope string_scope.
Local Open Scope Z_scope.

(** ** The date parser: [datetime.strptime(s, "%Y-%m-%d")] *)

Module Strptime.

(** The fragment of regular expressions the format compiles to. *)
Inductive regex : Type :=
| Chr (c : ascii)                 (* a literal character *)
| Rng (lo hi : ascii)             (* [lo-hi] *)
| Digit                           (* \d *)
| Seq (r1 r2 : regex)             (* r1 r2 *)
| Alt (r1 r2 : regex).            (* r1|r2, the left branch is tried first *)

Definition code (c : ascii) : Z := Z.of_N (N_of_ascii c).

Definition in_range (lo hi c : ascii) : bool :=
  (code lo <=? code c) && (code c <=? code hi).

Definition is_digit (c : ascii) : bool := in_range "0" "9" c.

(** All the ways [r] matches a prefix of [s], in the order a backtracking
    matcher tries them: each is the matched text and what is left. *)
Fixpoint rmatch (r : regex) (s : string) : list (string * string) :=
  match r with
  | Chr c =>
      match s with
      | String a s' => if Ascii.eqb a c then [(String a "", s')] else []
      | EmptyString => []
      end
  | Rng lo hi =>
      match s with
      | String a s' => if in_range lo hi a then [(String a "", s')] else []
      | EmptyString => []
      end
  | Digit =>
      match s with
      | String a s' => if is_digit a then [(String a "", s')] else []
      | EmptyString => []
      end
  | Seq r1 r2 =>
      flat_map (fun '(t1, s1) =>
                  map (fun '(t2, s2) => (t1 ++ t2, s2)) (rmatch r2 s1))
               (rmatch r1 s)
  | Alt r1 r2 => rmatch r1 s ++ rmatch r2 s
  end.

(** The groups of [_strptime.TimeRE] that the format uses. *)
(* 'Y': (?P<Y>\d\d\d\d) *)
Definition re_Y : regex := Seq Digit (Seq Digit (Seq Digit Digit)).
(* 'm': (?P<m>1[0-2]|0[1-9]|[1-9]) *)
Definition re_m : regex :=
  Alt (Seq (Chr "1") (Rng "0" "2"))
      (Alt (Seq (Chr "0") (Rng "1" "9")) (Rng "1" "9")).
(* 'd': (?P<d>3[0-1]|[1-2]\d|0[1-9]|[1-9]| [1-9]) *)
Definition re_d : regex :=
  Alt (Seq (Chr "3") (Rng "0" "1"))
      (Alt (Seq (Rng "1" "2") Digit)
           (Alt (Seq (Chr "0") (Rng "1" "9"))
                (Alt (Rng "1" "9") (Seq (Chr " ") (Rng "1" "9"))))).

(** [format_regex.match(data_string)] for the format "%Y-%m-%d": the first
    match, as the three groups and the unconverted rest. *)
Definition format_regex_match (s : string)
  : option (string * string * string * string) :=
  hd_error
    (flat_map (fun '(y, s1) =>
     flat_map (fun '(_, s2) =>
     flat_map (fun '(m, s3) =>
     flat_map (fun '(_, s4) =>
     map (fun '(d, s5) => (y, m, d, s5)) (rmatch re_d s4))
       (rmatch (Chr "-") s3))
       (rmatch re_m s2))
       (rmatch (Chr "-") s1))
       (rmatch re_Y s)).

(** [int(text)] on the text of a group: decimal digits, after optional
    leading blanks (the day group may be " 5"). *)
Fixpoint int_digits (acc : Z) (s : string) : Z :=
  match s with
  | EmptyString => acc
  | String c s' => int_digits (10 * acc + (code c - 48)) s'
  end.

Fixpoint py_int (s : string) : Z :=
  match s with
  | String " " s' => py_int s'
  | _ => int_digits 0 s
  end.

(** [datetime.date(year, month, day)] raises ValueError outside these. *)
Definition is_leap (year : Z) : bool :=
  (year mod 4 =? 0) && (negb (year mod 100 =? 0) || (year mod 400 =? 0)).

Definition days_in_month (year month : Z) : Z :=
  match month with
  | 1 | 3 | 5 | 7 | 8 | 10 | 12 => 31
  | 4 | 6 | 9 | 11 => 30
  | 2 => if is_leap year then 29 else 28
  | _ => 0
  end.

Definition MINYEAR : Z := 1.
Definition MAXYEAR : Z := 9999.

Definition check_date_fields (year month day : Z) : bool :=
  (MINYEAR <=? year) && (year <=? MAXYEAR) &&
  (1 <=? month) && (month <=? 12) &&
  (1 <=? day) && (day <=? days_in_month year month).

(** The parse: [Some (year, month, day)], or [None] for ValueError. *)
Definition strptime (data_string : string) : option (Z * Z * Z) :=
  match format_regex_match data_string with
  | None => None                               (* does not match format *)
  | Some (y, m, d, rest) =>
      match rest with
      | String _ _ => None                     (* unconverted data remains *)
      | EmptyString =>
          let year := py_int y in
          let month := py_int m in
          let day := py_int d in
          if check_date_fields year month day
          then Some (year, month, day) else None
      end
  end.

End Strptime.

(** ** Helper function to validate date *)

Definition date_format_message : string :=
  "Date must be in YYYY-MM-DD format (e.g., 2024-01-15)".

Definition validate_date (date_str : string) : bool * string :=
  match Strptime.strptime date_str with
  | Some _ => (true, "")
  | None => (false, date_format_message)
  end.

(** ** Python numbers and their formatting *)

(** The value of [sum(...)]: the [int] it starts from, or a [float]. *)
Inductive pynum : Type :=
| PyInt (n : Z)
| PyFloat (f : float).

(** [float(n)] for an [int] [n]: the nearest binary64. *)
Definition float_of_int (n : Z) : float :=
  SF2Prim (binary_normalize prec emax n 0 false).

Module Format.

(** [n / d] rounded to the nearest integer, ties to even ([0 < d]). *)
Definition round_half_even (n d : Z) : Z :=
  let q := n / d in
  match 2 * (n mod d) ?= d with
  | Lt => q
  | Gt => q + 1
  | Eq => if Z.even q then q else q + 1
  end.

(** [m * 2^e] in hundredths, correctly rounded. *)
Definition hundredths (m : positive) (e : Z) : Z :=
  if 0 <=? e then Zpos m * 100 * 2 ^ e
  else round_half_even (Zpos m * 100) (2 ^ (- e)).

Definition decimal (n : Z) : string :=
  DecimalString.NilZero.string_of_uint (N.to_uint (Z.to_N n)).

Definition digit_char (d : Z) : ascii := ascii_of_N (Z.to_N (48 + d)).

Definition two_digits (n : Z) : string :=
  String (digit_char (n / 10)) (String (digit_char (n mod 10)) "").

(** [f"{x:.2f}"] *)
Definition format_2f (x : float) : string :=
  match Prim2SF x with
  | S754_nan => "nan"
  | S754_infinity s => if s then "-inf" else "inf"
  | S754_zero s => if s then "-0.00" else "0.00"
  | S754_finite s m e =>
      let n := hundredths m e in
      (if s then "-" else "") ++ decimal (n / 100) ++ "." ++ two_digits (n mod 100)
  end.

End Format.

(** ** The [expenses] table *)

Module Expense.
Record t : Type := {
  id : Z;                          (* INTEGER PRIMARY KEY AUTOINCREMENT *)
  date : string;                   (* TEXT NOT NULL *)
  amount : float;                  (* REAL NOT NULL *)
  category : string;               (* TEXT NOT NULL *)
  subcategory : option string;     (* TEXT *)
  note : option string             (* TEXT *)
}.
End Expense.
Abbreviation expense := Expense.t.

(** The table in rowid order and the largest rowid ever given out. *)
Record store : Type := {
  rows : list expense;
  last_id : Z
}.

(** [init_db]: CREATE TABLE IF NOT EXISTS on a fresh file. *)
Definition init_db : store := {| rows := []; last_id := 0 |}.

Module Sql.

(** A REAL that is bound or returned: a NaN becomes NULL. *)
Definition real (f : float) : option float :=
  if is_nan f then None else Some f.

(** INSERT INTO expenses(date, amount, category, subcategory, note)
    VALUES (?, ?, ?, ?, ?): the new table and [lastrowid], or the message
    of the IntegrityError. *)
Definition insert (db : store) (date : string) (amount : float)
    (category : string) (subcategory note : option string)
  : store * Z + string :=
  match real amount with
  | None => inr "NOT NULL constraint failed: expenses.amount"
  | Some a =>
      let rowid := last_id db + 1 in
      inl ({| rows := rows db ++
                [{| Expense.id := rowid; Expense.date := date;
                    Expense.amount := a; Expense.category := category;
                    Expense.subcategory := subcategory;
                    Expense.note := note |}];
              last_id := rowid |}, rowid)
  end.

(** ORDER BY ... DESC: a stable insertion sort; [lt x y] says that the key
    of [x] sorts below the key of [y]. *)
Section OrderBy.
Context {A : Type} (lt : A -> A -> bool).

Fixpoint place (x : A) (l : list A) : list A :=
  match l with
  | [] => [x]
  | y :: l' => if lt x y then y :: place x l' else x :: l
  end.

Definition order_by_desc (l : list A) : list A := fold_right place [] l.

(** What the result satisfies: [x] is not followed by a row of larger
    key. *)
Definition desc (x y : A) : Prop := lt x y = false.
End OrderBy.

(** date BETWEEN ? AND ? *)
Definition between (d lo hi : string) : bool :=
  String.leb lo d && String.leb d hi.

(** SELECT id, date, amount, category, subcategory, note FROM expenses
    WHERE date BETWEEN ? AND ? ORDER BY date DESC *)
Definition query_range (db : store) (start_date end_date : string)
  : list expense :=
  order_by_desc (fun x y => String.ltb (Expense.date x) (Expense.date y))
    (filter (fun r => between (Expense.date r) start_date end_date) (rows db)).

(** SUM(amount) over the rows of a group: the additions in row order,
    the result a REAL or NULL. *)
Definition sum (amounts : list float) : option float :=
  real (fold_left PrimFloat.add amounts zero).

(** The order of REAL keys, with NULL below every number. *)
Definition key_lt (a b : option float) : bool :=
  match a, b with
  | None, None => false
  | None, Some _ => true
  | Some _, None => false
  | Some x, Some y => (x <? y)%float
  end.

End Sql.

(** A row of the aggregate query, as the dict the program builds. *)
Module Group.
Record t : Type := {
  category : string;
  total_amount : option float;     (* SUM(amount) *)
  count : nat                      (* COUNT( * ) *)
}.
End Group.

Module Aggregate.

(** WHERE date BETWEEN ? AND ? [AND category = ?] *)
Definition selected (start_date end_date : string) (category : option string)
    (r : expense) : bool :=
  Sql.between (Expense.date r) start_date end_date &&
  match category with
  | Some c => String.eqb (Expense.category r) c
  | None => true
  end.

(** The keys of GROUP BY category. SQL leaves the order of rows of equal
    total open; the keys are taken in descending order, which is the
    order SQLite returns such rows in. *)
Definition group_keys (l : list expense) : list string :=
  Sql.order_by_desc String.ltb (nodup string_dec (map Expense.category l)).

Definition members (l : list expense) (c : string) : list expense :=
  filter (fun r => String.eqb (Expense.category r) c) l.

Definition group_row (l : list expense) (c : string) : Group.t :=
  let g := members l c in
  {| Group.category := c;
     Group.total_amount := Sql.sum (map Expense.amount g);
     Group.count := List.length g |}.

(** SELECT category, SUM(amount) AS total_amount, COUNT( * ) AS count
    FROM expenses WHERE ... GROUP BY category ORDER BY total_amount DESC *)
Definition aggregate_range (db : store) (start_date end_date : string)
    (category : option string) : list Group.t :=
  let l := filter (selected start_date end_date category) (rows db) in
  Sql.order_by_desc
    (fun x y => Sql.key_lt (Group.total_amount x) (Group.total_amount y))
    (map (group_row l) (group_keys l)).

End Aggregate.

(** [sum(items)] over the totals of the summary: it starts from the
    [int] 0 and fails with a TypeError on a [None]. *)
Module Py.

Definition type_name (a : pynum) : string :=
  match a with
  | PyInt _ => "int"
  | PyFloat _ => "float"
  end.

Definition to_float (a : pynum) : float :=
  match a with
  | PyInt n => float_of_int n
  | PyFloat f => f
  end.

Definition add (a : pynum) (item : option float) : pynum + string :=
  match item with
  | Some f => inl (PyFloat (to_float a + f)%float)
  | None =>
      inr ("unsupported operand type(s) for +: '" ++ type_name a
           ++ "' and 'NoneType'")
  end.

Fixpoint sum_from (acc : pynum) (items : list (option float))
  : pynum + string :=
  match items with
  | [] => inl acc
  | item :: rest =>
      match add acc item with
      | inl acc' => sum_from acc' rest
      | inr e => inr e
      end
  end.

Definition sum (items : list (option float)) : pynum + string :=
  sum_from (PyInt 0) items.

End Py.

(** ** Tools *)

(** The dict a tool returns: an error, or the success of one of the three
    tools with its fields. *)
Inductive response : Type :=
| Error (message : string)
| Added (id : Z) (message : string)
| Listed (count : nat) (expenses : list expense)
| Summarized (period : string) (total_amount : pynum)
             (summary : list Group.t).

Definition status (r : response) : string :=
  match r with
  | Error _ => "error"
  | _ => "success"
  end.

Definition valid_categories : list string :=
  ["Food"; "Travel"; "Transport"; "Shopping"; "Bills";
   "Healthcare"; "Education"; "Business"; "Other"].

Definition amount_message : string := "Amount must be a positive number".

Definition category_message : string :=
  "Invalid category. Must be one of: " ++ String.concat ", " valid_categories.

Definition added_message (category : string) (amount : float) (date : string)
  : string :=
  "Added expense: " ++ category ++ " - $" ++ Format.format_2f amount
  ++ " on " ++ date.

Definition add_expense (db : store) (date : string) (amount : float)
    (category : string) (subcategory note : option string)
  : response * store :=
  (* Validate date *)
  let '(is_valid, error_msg) := validate_date date in
  if negb is_valid then (Error error_msg, db) else
  (* Validate amount *)
  if (amount <=? 0)%float then (Error amount_message, db) else
  (* Validate category *)
  if negb (existsb (String.eqb category) valid_categories)
  then (Error category_message, db) else
  match Sql.insert db date amount category subcategory note with
  | inl (db', lastrowid) =>
      (Added lastrowid (added_message category amount date), db')
  | inr e => (Error ("Database error: " ++ e), db)
  end.

Definition list_expenses (db : store) (start_date end_date : string)
  : response :=
  (* Validate dates *)
  let '(is_valid, error_msg) := validate_date start_date in
  if negb is_valid then Error ("Invalid start_date: " ++ error_msg) else
  let '(is_valid, error_msg) := validate_date end_date in
  if negb is_valid then Error ("Invalid end_date: " ++ error_msg) else
  let expenses := Sql.query_range db start_date end_date in
  Listed (List.length expenses) expenses.

(** [if category:] holds for a string that is neither [None] nor empty. *)
Definition truthy (category : option string) : option string :=
  match category with
  | Some "" => None
  | other => other
  end.

Definition summarize (db : store) (start_date end_date : string)
    (category : option string) : response :=
  (* Validate dates *)
  let '(is_valid, error_msg) := validate_date start_date in
  if negb is_valid then Error ("Invalid start_date: " ++ error_msg) else
  let '(is_valid, error_msg) := validate_date end_date in
  if negb is_valid then Error ("Invalid end_date: " ++ error_msg) else
  let summary :=
    Aggregate.aggregate_range db start_date end_date (truthy category) in
  match Py.sum (map Group.total_amount summary) with
  | inl total =>
      Summarized (start_date ++ " to " ++ end_date) total summary
  | inr e => Error ("Database error: " ++ e)
  end.

(** ** The server as a state machine over the table *)

Inductive call : Type :=
| AddExpense (date : string) (amount : float) (category : string)
             (subcategory note : option string)
| ListExpenses (start_date end_date : string)
| Summarize (start_date end_date : string) (category : option string).

Definition step (db : store) (c : call) : response * store :=
  match c with
  | AddExpense date amount category subcategory note =>
      add_expense db date amount category subcategory note
  | ListExpenses start_date end_date =>
      (list_expenses db start_date end_date, db)
  | Summarize start_date end_date category =>
      (summarize db start_date end_date category, db)
  end.

(** The table after a sequence of calls. *)
Definition run (calls : list call) (db : store) : store :=
  fold_left (fun db c => snd (step db c)) calls db.

(** The table of the scenario of the specification. *)
Definition jan_store : store :=
  run [AddExpense "2024-01-10" 10 "Food" None None;
       AddExpense "2024-01-20" 20 "Travel" None None;
       AddExpense "2024-01-05" 5 "Food" None None] init_db.


(** ** The predicates of the properties *)

(** A binary64 that is a zero, or a number or infinity of sign [s]. *)
Definition signed (s : bool) (x : spec_float) : Prop :=
  match x with
  | S754_zero _ => True
  | S754_infinity s' | S754_finite s' _ _ => s' = s
  | S754_nan => False
  end.

(** A row of the table as [add_expense] may write it. *)
Definition valid_record (r : expense) : Prop :=
  (0 <? Expense.amount r)%float = true /\
  In (Expense.category r) valid_categories.

Definition store_ok (db : store) : Prop := Forall valid_record (rows db).

(** Rowids are positive, never above the counter and never repeated. *)
Definition ids_ok (db : store) : Prop :=
  Forall (fun r => 0 < Expense.id r <= last_id db) (rows db) /\
  NoDup (map Expense.id (rows db)) /\
  0 <= last_id db.

Fixpoint all_digits (s : string) : bool :=
  match s with
  | EmptyString => true
  | String c s' => Strptime.is_digit c && all_digits s'
  end.

(** The shape of a number with two decimal places: digits, a point, two
    digits. *)
Definition two_decimals (s : string) : Prop :=
  exists ip d1 d2,
    s = ip ++ "." ++ String d1 (String d2 "") /\
    ip <> "" /\ all_digits ip = true /\
    Strptime.is_digit d1 = true /\ Strptime.is_digit d2 = true.


(** The texts a regular expression matches. *)
Inductive matches : Strptime.regex -> string -> Prop :=
| m_chr c : matches (Strptime.Chr c) (String c "")
| m_rng lo hi c :
    Strptime.in_range lo hi c = true ->
    matches (Strptime.Rng lo hi) (String c "")
| m_digit c :
    Strptime.is_digit c = true -> matches Strptime.Digit (String c "")
| m_seq r1 r2 t1 t2 :
    matches r1 t1 -> matches r2 t2 -> matches (Strptime.Seq r1 r2) (t1 ++ t2)
| m_alt_l r1 r2 t : matches r1 t -> matches (Strptime.Alt r1 r2) t
| m_alt_r r1 r2 t : matches r2 t -> matches (Strptime.Alt r1 r2) t.

(** Every character, for the enumeration of a class. *)
Definition all_chars : list ascii :=
  map ascii_of_nat (seq 0 256).

(** The texts of the month group and of the day group. *)
Definition month_texts : list string :=
  ["10"; "11"; "12";
   "01"; "02"; "03"; "04"; "05"; "06"; "07"; "08"; "09";
   "1"; "2"; "3"; "4"; "5"; "6"; "7"; "8"; "9"].

Definition day_texts : list string :=
  ["30"; "31";
   "10"; "11"; "12"; "13"; "14"; "15"; "16"; "17"; "18"; "19";
   "20"; "21"; "22"; "23"; "24"; "25"; "26"; "27"; "28"; "29";
   "01"; "02"; "03"; "04"; "05"; "06"; "07"; "08"; "09";
   "1"; "2"; "3"; "4"; "5"; "6"; "7"; "8"; "9";
   " 1"; " 2"; " 3"; " 4"; " 5"; " 6"; " 7"; " 8"; " 9"].

(** ** The notions of the further properties *)

(** The ids [1 .. n], as the AUTOINCREMENT counter gives them out. *)
Definition first_ids (n : nat) : list Z := map Z.of_nat (seq 1 n).

(** The ids of the table are [1 .. n] in row order and the counter stands
    at [n]. *)
Definition ids_consecutive (db : store) : Prop :=
  map Expense.id (rows db) = first_ids (List.length (rows db)) /\
  last_id db = Z.of_nat (List.length (rows db)).

(** The fixed-width writing of a date, the one [date.isoformat()] gives:
    "%04d-%02d-%02d". *)
Definition pad4 (n : Z) : string :=
  String (Format.digit_char (n / 1000))
    (String (Format.digit_char (n / 100 mod 10))
       (String (Format.digit_char (n / 10 mod 10))
          (String (Format.digit_char (n mod 10)) ""))).

Definition isoformat (year month day : Z) : string :=
  pad4 year ++ "-" ++ Format.two_digits month ++ "-" ++ Format.two_digits day.

(** The order of the calendar on (year, month, day). *)
Definition ymd_leb (a b : Z * Z * Z) : bool :=
  let '(y, m, d) := a in
  let '(y', m', d') := b in
  (y <? y') || ((y =? y') && ((m <? m') || ((m =? m') && (d <=? d')))).

(** The texts that denote a date for the parser: four digits, a hyphen, a
    month text, a hyphen, a day text, and the numbers they denote are a
    date of the calendar. *)
Definition date_text (s : string) : Prop :=
  exists y1 y2 y3 y4 m d,
    s = String y1 (String y2 (String y3 (String y4 ("-" ++ m ++ "-" ++ d)))) /\
    Strptime.is_digit y1 = true /\ Strptime.is_digit y2 = true /\
    Strptime.is_digit y3 = true /\ Strptime.is_digit y4 = true /\
    In m month_texts /\ In d day_texts /\
    Strptime.check_date_fields
      (Strptime.py_int (String y1 (String y2 (String y3 (String y4 "")))))
      (Strptime.py_int m) (Strptime.py_int d) = true.

(** ** The real numbers behind the amounts *)


Module Real.
Import Reals.
Local Open Scope R_scope.







End Real.

(** * Properties *)

(** ** The scenarios of the specification *)

Example validate_date_iso : validate_date "2024-01-15" = (true, "").
Proof. reflexivity. Qed.

Example validate_date_month_13 :
  validate_date "2024-13-01" = (false, date_format_message).
Proof. reflexivity. Qed.

Example validate_date_feb_30 :
  validate_date "2024-02-30" = (false, date_format_message).
Proof. reflexivity. Qed.

Example validate_date_time_component :
  validate_date "2024-01-05T00:00" = (false, date_format_message).
Proof. reflexivity. Qed.

Example validate_date_year_zero :
  validate_date "0000-01-01" = (false, date_format_message).
Proof. reflexivity. Qed.

Example format_2f_12_5 : Format.format_2f 12.5%float = "12.50".
Proof. reflexivity. Qed.

Example format_2f_tie_even : Format.format_2f 0.125%float = "0.12".
Proof. reflexivity. Qed.

(* the binary64 nearest to 2.675 lies below it *)
Example format_2f_2_675 : Format.format_2f 0x1.5666666666666p+1%float = "2.67".
Proof. reflexivity. Qed.

Example format_2f_infinity : Format.format_2f infinity = "inf".
Proof. reflexivity. Qed.

Example summarize_january :
  summarize jan_store "2024-01-01" "2024-01-31" None
  = Summarized "2024-01-01 to 2024-01-31" (PyFloat 35)
      [ {| Group.category := "Travel"; Group.total_amount := Some 20%float;
           Group.count := 1 |};
        {| Group.category := "Food"; Group.total_amount := Some 15%float;
           Group.count := 2 |} ].
Proof. reflexivity. Qed.

Example list_january_ids :
  match list_expenses jan_store "2024-01-01" "2024-01-31" with
  | Listed n l => (n, map Expense.id l) = (3%nat, [2; 1; 3])
  | _ => False
  end.
Proof. reflexivity. Qed.

Example add_bad_month :
  add_expense init_db "2024-13-01" 10 "Food" None None
  = (Error date_format_message, init_db).
Proof. reflexivity. Qed.

Example add_negative :
  add_expense init_db "2024-01-15" (-5) "Food" None None
  = (Error amount_message, init_db).
Proof. reflexivity. Qed.

Example add_groceries :
  add_expense init_db "2024-01-15" 10 "Groceries" None None
  = (Error "Invalid category. Must be one of: Food, Travel, Transport, Shopping, Bills, Healthcare, Education, Business, Other", init_db).
Proof. reflexivity. Qed.

Example add_food :
  fst (add_expense init_db "2024-01-15" 12.5 "Food" None None)
  = Added 1 "Added expense: Food - $12.50 on 2024-01-15".
Proof. reflexivity. Qed.


(** ** Facts on binary64 comparison and addition *)

Module FloatFacts.

Section Rounding.
Variables prec emax : Z.






End Rounding.

Local Open Scope float_scope.

Lemma Prim2SF_zero : Prim2SF 0 = S754_zero false.
Proof. reflexivity. Qed.

Lemma is_nan_spec x : is_nan x = true <-> Prim2SF x = S754_nan.
Proof.
  unfold is_nan. rewrite eqb_spec. unfold SFeqb.
  destruct (Prim2SF x) as [s|s| |s m e]; simpl.
  - split; discriminate.
  - destruct s; split; discriminate.
  - split; reflexivity.
  - rewrite Z.compare_refl, Pos.compare_cont_refl.
    destruct s; split; discriminate.
Qed.

Lemma leb_zero_signed x : (0 <=? x) = true <-> signed false (Prim2SF x).
Proof.
  rewrite leb_spec, Prim2SF_zero. unfold SFleb.
  destruct (Prim2SF x) as [s|[]| |[] m e]; simpl; split;
    intros H; try discriminate; try contradiction; auto.
Qed.

Lemma nonneg_not_nan x : (0 <=? x) = true -> is_nan x = false.
Proof.
  intros H. apply leb_zero_signed in H.
  destruct (is_nan x) eqn:E; [|reflexivity].
  apply is_nan_spec in E. rewrite E in H. contradiction.
Qed.

Lemma ltb_leb x y : (x <? y) = true -> (x <=? y) = true.
Proof.
  rewrite ltb_spec, leb_spec. unfold SFltb, SFleb.
  destruct (SFcompare _ _) as [[]|]; auto.
Qed.

(** What the guard [amount <= 0] lets through is a positive number or a
    NaN. *)
Lemma not_leb_zero x :
  (x <=? 0) = false -> is_nan x = false -> (0 <? x) = true.
Proof.
  intros H N. rewrite leb_spec in H. rewrite ltb_spec.
  rewrite Prim2SF_zero in *. unfold SFleb in H. unfold SFltb.
  destruct (Prim2SF x) as [s|[]| |[] m e] eqn:E; simpl in *;
    try discriminate; try reflexivity.
  apply is_nan_spec in E. congruence.
Qed.







End FloatFacts.

(** ** Facts on the order of strings *)

Module StringFacts.

Lemma compare_refl s : String.compare s s = Eq.
Proof.
  induction s as [|a s IH]; simpl; [reflexivity|].
  unfold Ascii.compare. now rewrite N.compare_refl.
Qed.

(** [String.compare] is a lexicographic order: it composes. *)
Lemma compare_trans c s1 : forall s2 s3,
  String.compare s1 s2 = c -> String.compare s2 s3 = c ->
  String.compare s1 s3 = c.
Proof.
  induction s1 as [|a1 s1 IH]; intros [|a2 s2] [|a3 s3]; simpl;
    try congruence.
  unfold Ascii.compare.
  destruct (N.compare_spec (N_of_ascii a1) (N_of_ascii a2)) as [E12|L12|G12];
  destruct (N.compare_spec (N_of_ascii a2) (N_of_ascii a3)) as [E23|L23|G23];
    try congruence; intros H1 H2; subst.
  - rewrite E12, E23, N.compare_refl. eapply IH; eauto.
  - rewrite E12. apply N.compare_lt_iff in L23. now rewrite L23.
  - rewrite E12. apply N.compare_gt_iff in G23. now rewrite G23.
  - rewrite <- E23. apply N.compare_lt_iff in L12. now rewrite L12.
  - assert (L : (N_of_ascii a1 < N_of_ascii a3)%N) by lia.
    apply N.compare_lt_iff in L. now rewrite L.
  - rewrite <- E23. apply N.compare_gt_iff in G12. now rewrite G12.
  - assert (L : (N_of_ascii a3 < N_of_ascii a1)%N) by lia.
    apply N.compare_gt_iff in L. now rewrite L.
Qed.

Lemma leb_iff s1 s2 : String.leb s1 s2 = true <-> String.compare s1 s2 <> Gt.
Proof.
  unfold String.leb. destruct (String.compare s1 s2); split; congruence.
Qed.

Lemma string_leb_trans s1 s2 s3 :
  String.leb s1 s2 = true -> String.leb s2 s3 = true ->
  String.leb s1 s3 = true.
Proof.
  rewrite !leb_iff. intros H1 H2.
  destruct (String.compare s1 s2) eqn:E1; [ | | congruence ];
  destruct (String.compare s2 s3) eqn:E2; try congruence.
  - apply String.compare_eq_iff in E1. subst. now rewrite E2.
  - apply String.compare_eq_iff in E1. subst. now rewrite E2.
  - apply String.compare_eq_iff in E2. subst. now rewrite E1.
  - now rewrite (compare_trans Lt _ _ _ E1 E2).
Qed.

Lemma string_not_ltb_leb s1 s2 : String.ltb s1 s2 = false <-> String.leb s2 s1 = true.
Proof.
  unfold String.ltb, String.leb. rewrite (String.compare_antisym s1 s2).
  destruct (String.compare s2 s1); simpl; split; congruence.
Qed.

Lemma string_ltb_asym s1 s2 : String.ltb s1 s2 = true -> String.ltb s2 s1 = false.
Proof.
  unfold String.ltb. rewrite (String.compare_antisym s1 s2).
  destruct (String.compare s2 s1); simpl; congruence.
Qed.

End StringFacts.

(** ** Facts on ORDER BY *)

Module OrderFacts.

Section OrderBy.
Context {A : Type} (lt : A -> A -> bool).
Hypothesis lt_asym : forall x y, lt x y = true -> lt y x = false.

Lemma place_perm x l : Permutation (Sql.place lt x l) (x :: l).
Proof.
  induction l as [|y l IH]; simpl; [reflexivity|].
  destruct (lt x y); [|reflexivity].
  rewrite IH. apply perm_swap.
Qed.

Lemma order_by_desc_perm l : Permutation (Sql.order_by_desc lt l) l.
Proof.
  induction l as [|x l IH]; simpl; [reflexivity|].
  rewrite place_perm. now apply perm_skip.
Qed.

Lemma place_sorted x l : Sorted (Sql.desc lt) l -> Sorted (Sql.desc lt) (Sql.place lt x l).
Proof.
  induction l as [|y l IH]; simpl; intros S.
  - repeat constructor.
  - destruct (lt x y) eqn:E.
    + apply Sorted_inv in S. destruct S as [S H].
      constructor; [now apply IH|].
      destruct l as [|z l]; simpl.
      * constructor. now apply lt_asym.
      * destruct (lt x z); constructor.
        -- now inversion H.
        -- now apply lt_asym.
    + constructor; [exact S|]. constructor. exact E.
Qed.

Lemma order_by_desc_sorted l : Sorted (Sql.desc lt) (Sql.order_by_desc lt l).
Proof.
  induction l as [|x l IH]; simpl; [constructor|].
  now apply place_sorted.
Qed.

Lemma order_by_desc_In x l : In x (Sql.order_by_desc lt l) <-> In x l.
Proof.
  split; apply Permutation_in;
    [ | symmetry ]; apply order_by_desc_perm.
Qed.

End OrderBy.

End OrderFacts.

(** ** Validation of dates *)

Lemma validate_date_cases s :
  validate_date s = (true, "") \/ validate_date s = (false, date_format_message).
Proof.
  unfold validate_date. destruct (Strptime.strptime s); auto.
Qed.

(** ** list_expenses *)

Lemma list_expenses_valid db start_date end_date :
  validate_date start_date = (true, "") ->
  validate_date end_date = (true, "") ->
  list_expenses db start_date end_date
  = Listed (List.length (Sql.query_range db start_date end_date))
           (Sql.query_range db start_date end_date).
Proof.
  intros Hs He. unfold list_expenses. now rewrite Hs, He.
Qed.

Lemma date_desc_trans :
  Relations_1.Transitive
    (fun x y : expense =>
       String.leb (Expense.date y) (Expense.date x) = true).
Proof.
  intros x y z Hxy Hyz. eapply StringFacts.string_leb_trans; eauto.
Qed.

Lemma Sorted_impl {A} (R R' : A -> A -> Prop) l :
  (forall x y, R x y -> R' x y) -> Sorted R l -> Sorted R' l.
Proof.
  intros HR S. induction S as [|a l S IH H]; constructor; [exact IH|].
  destruct H; constructor. now apply HR.
Qed.

Lemma query_range_sorted db start_date end_date :
  StronglySorted
    (fun x y => String.leb (Expense.date y) (Expense.date x) = true)
    (Sql.query_range db start_date end_date).
Proof.
  apply Sorted_StronglySorted; [exact date_desc_trans|].
  unfold Sql.query_range.
  eapply Sorted_impl; [|apply OrderFacts.order_by_desc_sorted].
  - intros x y H. apply StringFacts.string_not_ltb_leb. exact H.
  - intros x y. apply StringFacts.string_ltb_asym.
Qed.

Lemma between_inverted d lo hi :
  String.ltb hi lo = true -> Sql.between d lo hi = false.
Proof.
  intros H. unfold Sql.between.
  destruct (String.leb lo d) eqn:E1, (String.leb d hi) eqn:E2; auto.
  pose proof (StringFacts.string_leb_trans _ _ _ E1 E2) as L.
  apply StringFacts.string_not_ltb_leb in L. congruence.
Qed.

Lemma filter_none {A} (f : A -> bool) l :
  (forall x, f x = false) -> filter f l = [].
Proof.
  intros H. induction l as [|x l IH]; simpl; [reflexivity|].
  now rewrite H.
Qed.

(** C1. For valid dates [list_expenses] succeeds with exactly the rows of
    the table whose date lies between [start_date] and [end_date] in the
    order of strings, both ends included; the rows come by descending
    date; [count] is their number; and a [start_date] above [end_date]
    gives the empty list and a count of 0. *)
Theorem list_expenses_range db start_date end_date :
  validate_date start_date = (true, "") ->
  validate_date end_date = (true, "") ->
  exists expenses,
    list_expenses db start_date end_date
      = Listed (List.length expenses) expenses /\
    status (list_expenses db start_date end_date) = "success" /\
    Permutation expenses
      (filter (fun r => String.leb start_date (Expense.date r)
                        && String.leb (Expense.date r) end_date) (rows db)) /\
    (forall r, In r expenses <->
               In r (rows db) /\
               String.leb start_date (Expense.date r) = true /\
               String.leb (Expense.date r) end_date = true) /\
    StronglySorted
      (fun x y => String.leb (Expense.date y) (Expense.date x) = true)
      expenses /\
    (String.ltb end_date start_date = true ->
     expenses = [] /\ List.length expenses = 0%nat).
Proof.
  intros Hs He. exists (Sql.query_range db start_date end_date).
  rewrite (list_expenses_valid db _ _ Hs He).
  repeat split.
  - apply OrderFacts.order_by_desc_perm.
  - unfold Sql.query_range in H.
    apply OrderFacts.order_by_desc_In, filter_In in H. tauto.
  - unfold Sql.query_range in H.
    apply OrderFacts.order_by_desc_In, filter_In in H.
    destruct H as [_ H]. unfold Sql.between in H.
    apply andb_true_iff in H. tauto.
  - unfold Sql.query_range in H.
    apply OrderFacts.order_by_desc_In, filter_In in H.
    destruct H as [_ H]. unfold Sql.between in H.
    apply andb_true_iff in H. tauto.
  - intros (Hin & H1 & H2). unfold Sql.query_range.
    apply OrderFacts.order_by_desc_In, filter_In. split; [exact Hin|].
    unfold Sql.between. now rewrite H1, H2.
  - apply query_range_sorted.
  - unfold Sql.query_range. rewrite filter_none; [reflexivity|].
    intros r. now apply between_inverted.
  - unfold Sql.query_range. rewrite filter_none; [reflexivity|].
    intros r. now apply between_inverted.
Qed.

Lemma list_expenses_range_witness :
  exists expenses,
    list_expenses jan_store "2024-01-01" "2024-01-31"
      = Listed (List.length expenses) expenses /\
    Permutation expenses (rows jan_store).
Proof.
  destruct (list_expenses_range jan_store "2024-01-01" "2024-01-31")
    as (l & H1 & _ & H2 & _); [reflexivity | reflexivity |].
  exists l. split; [exact H1 | exact H2].
Defined.

(** ** Errors on the dates of a range *)

Lemma summarize_valid db start_date end_date category :
  validate_date start_date = (true, "") ->
  validate_date end_date = (true, "") ->
  summarize db start_date end_date category
  = match Py.sum (map Group.total_amount
            (Aggregate.aggregate_range db start_date end_date
               (truthy category))) with
    | inl total =>
        Summarized (start_date ++ " to " ++ end_date) total
          (Aggregate.aggregate_range db start_date end_date (truthy category))
    | inr e => Error ("Database error: " ++ e)
    end.
Proof.
  intros Hs He. unfold summarize. now rewrite Hs, He.
Qed.

Lemma list_expenses_end_prefix db start_date end_date msg :
  list_expenses db start_date end_date = Error msg ->
  String.prefix "Invalid end_date: " msg = true ->
  validate_date start_date = (true, "") /\
  validate_date end_date = (false, date_format_message).
Proof.
  unfold list_expenses.
  destruct (validate_date_cases start_date) as [Hs|Hs]; rewrite Hs; simpl.
  - destruct (validate_date_cases end_date) as [He|He]; rewrite He; simpl.
    + discriminate.
    + auto.
  - intros [= <-]. discriminate.
Qed.

Lemma summarize_end_prefix db start_date end_date category msg :
  summarize db start_date end_date category = Error msg ->
  String.prefix "Invalid end_date: " msg = true ->
  validate_date start_date = (true, "") /\
  validate_date end_date = (false, date_format_message).
Proof.
  unfold summarize.
  destruct (validate_date_cases start_date) as [Hs|Hs]; rewrite Hs; simpl.
  - destruct (validate_date_cases end_date) as [He|He]; rewrite He; simpl.
    + destruct (Py.sum _); [discriminate|].
      intros [= <-]. discriminate.
    + auto.
  - intros [= <-]. discriminate.
Qed.

(** C9. In [list_expenses] and in [summarize] the start date is checked
    first: when it is invalid the error is "Invalid start_date: ..."
    whatever the end date is, so with both dates invalid only the start
    date is named; and an error that begins with "Invalid end_date: " is
    returned only when the start date is valid. *)
Theorem date_errors_name_start_first db start_date end_date category :
  (validate_date start_date = (false, date_format_message) ->
   list_expenses db start_date end_date
     = Error ("Invalid start_date: " ++ date_format_message) /\
   summarize db start_date end_date category
     = Error ("Invalid start_date: " ++ date_format_message)) /\
  (validate_date start_date = (true, "") ->
   validate_date end_date = (false, date_format_message) ->
   list_expenses db start_date end_date
     = Error ("Invalid end_date: " ++ date_format_message) /\
   summarize db start_date end_date category
     = Error ("Invalid end_date: " ++ date_format_message)) /\
  (forall msg,
     list_expenses db start_date end_date = Error msg \/
     summarize db start_date end_date category = Error msg ->
     String.prefix "Invalid end_date: " msg = true ->
     validate_date start_date = (true, "")).
Proof.
  split; [|split].
  - intros Hs. unfold list_expenses, summarize. now rewrite Hs.
  - intros Hs He. unfold list_expenses, summarize. now rewrite Hs, He.
  - intros msg [H|H] P.
    + now destruct (list_expenses_end_prefix _ _ _ _ H P).
    + now destruct (summarize_end_prefix _ _ _ _ _ H P).
Qed.

Lemma date_errors_name_start_first_witness :
  list_expenses init_db "2024-13-01" "01/02/2024"
    = Error "Invalid start_date: Date must be in YYYY-MM-DD format (e.g., 2024-01-15)" /\
  summarize init_db "2024-13-01" "01/02/2024" None
    = Error "Invalid start_date: Date must be in YYYY-MM-DD format (e.g., 2024-01-15)" /\
  list_expenses init_db "2024-01-01" "01/02/2024"
    = Error "Invalid end_date: Date must be in YYYY-MM-DD format (e.g., 2024-01-15)".
Proof.
  destruct (date_errors_name_start_first init_db "2024-13-01" "01/02/2024" None)
    as [H _].
  destruct (date_errors_name_start_first init_db "2024-01-01" "01/02/2024" None)
    as (_ & H' & _).
  destruct (H eq_refl) as [H1 H2].
  destruct (H' eq_refl eq_refl) as [H3 _].
  split; [exact H1 | split; [exact H2 | exact H3]].
Defined.

(** ** add_expense *)

Lemma existsb_eqb_In c l : existsb (String.eqb c) l = true <-> In c l.
Proof.
  rewrite existsb_exists. split.
  - intros (x & Hx & E). apply String.eqb_eq in E. now subst.
  - intros H. exists c. split; [exact H | apply String.eqb_refl].
Qed.

Lemma not_in_valid_categories c :
  ~ In c valid_categories ->
  existsb (String.eqb c) valid_categories = false.
Proof.
  intros H. destruct (existsb _ _) eqn:E; [|reflexivity].
  apply existsb_eqb_In in E. contradiction.
Qed.

(** The three checks, in the order of the code. *)
Lemma add_expense_invalid_date db date amount category subcategory note :
  validate_date date = (false, date_format_message) ->
  add_expense db date amount category subcategory note
  = (Error date_format_message, db).
Proof. intros H. unfold add_expense. now rewrite H. Qed.

Lemma add_expense_invalid_amount db date amount category subcategory note :
  validate_date date = (true, "") ->
  (amount <=? 0)%float = true ->
  add_expense db date amount category subcategory note
  = (Error amount_message, db).
Proof. intros H1 H2. unfold add_expense. now rewrite H1, H2. Qed.

Lemma add_expense_invalid_category db date amount category subcategory note :
  validate_date date = (true, "") ->
  (amount <=? 0)%float = false ->
  ~ In category valid_categories ->
  add_expense db date amount category subcategory note
  = (Error category_message, db).
Proof.
  intros H1 H2 H3. unfold add_expense.
  now rewrite H1, H2, (not_in_valid_categories _ H3).
Qed.

Lemma add_expense_checked db date amount category subcategory note :
  validate_date date = (true, "") ->
  (amount <=? 0)%float = false ->
  In category valid_categories ->
  add_expense db date amount category subcategory note
  = match Sql.insert db date amount category subcategory note with
    | inl (db', lastrowid) =>
        (Added lastrowid (added_message category amount date), db')
    | inr e => (Error ("Database error: " ++ e), db)
    end.
Proof.
  intros H1 H2 H3. unfold add_expense.
  apply existsb_eqb_In in H3. now rewrite H1, H2, H3.
Qed.

(** C6. [add_expense] checks the date, then the amount, then the
    category; the first check that fails decides the error message, and
    the table that comes back is the table that went in. *)
Theorem add_expense_validation_order
    db date amount category subcategory note :
  (validate_date date = (false, date_format_message) ->
   add_expense db date amount category subcategory note
   = (Error date_format_message, db)) /\
  (validate_date date = (true, "") ->
   (amount <=? 0)%float = true ->
   add_expense db date amount category subcategory note
   = (Error amount_message, db)) /\
  (validate_date date = (true, "") ->
   (amount <=? 0)%float = false ->
   ~ In category valid_categories ->
   add_expense db date amount category subcategory note
   = (Error category_message, db)).
Proof.
  split; [|split].
  - apply add_expense_invalid_date.
  - apply add_expense_invalid_amount.
  - apply add_expense_invalid_category.
Qed.

Lemma add_expense_validation_order_witness :
  add_expense jan_store "15/01/2024" (-5) "Groceries" None None
    = (Error date_format_message, jan_store) /\
  add_expense jan_store "2024-01-15" (-5) "Groceries" None None
    = (Error amount_message, jan_store) /\
  add_expense jan_store "2024-01-15" 5 "Groceries" None None
    = (Error category_message, jan_store).
Proof.
  split; [|split].
  - apply (add_expense_validation_order jan_store "15/01/2024" (-5)
             "Groceries" None None). reflexivity.
  - apply (add_expense_validation_order jan_store "2024-01-15" (-5)
             "Groceries" None None); reflexivity.
  - apply (add_expense_validation_order jan_store "2024-01-15" 5
             "Groceries" None None); [reflexivity | reflexivity |].
    simpl. intros H.
    repeat (destruct H as [H|H]; [discriminate H|]). exact H.
Defined.

(** *** The amount check *)

Lemma zero_or_negative_leb x :
  is_zero x = true \/ (x <? 0)%float = true -> (x <=? 0)%float = true.
Proof.
  intros [H|H].
  - unfold is_zero in H. rewrite eqb_spec in H. rewrite leb_spec.
    unfold SFeqb in H. unfold SFleb.
    change (Prim2SF zero) with (Prim2SF 0).
    destruct (SFcompare _ _) as [[]|]; congruence.
  - now apply FloatFacts.ltb_leb.
Qed.

(** With a valid date, an amount that is zero (of either sign) or
    negative (minus infinity included) is answered by the error "Amount
    must be a positive number", and the table is unchanged. *)
Lemma add_expense_rejects_nonpositive
    db date amount category subcategory note :
  validate_date date = (true, "") ->
  is_zero amount = true \/ (amount <? 0)%float = true ->
  add_expense db date amount category subcategory note
  = (Error "Amount must be a positive number", db).
Proof.
  intros Hd Ha. apply add_expense_invalid_amount; [exact Hd|].
  now apply zero_or_negative_leb.
Qed.

(** C4. The check [amount <= 0] does not catch a NaN: the comparison is
    false, so with a valid date a NaN goes on to the category check and,
    with a category of the nine, to the INSERT, where the NOT NULL
    constraint of the column refuses it. The answer is the database error
    and never "Amount must be a positive number"; the table is unchanged.
    Zero and negative amounts, the rest of what the check is for, do get
    that message. *)
Theorem add_expense_nan_not_rejected :
  (nan <=? 0)%float = false /\
  add_expense init_db "2024-01-15" nan "Food" None None
  = (Error "Database error: NOT NULL constraint failed: expenses.amount",
     init_db) /\
  (forall db date amount category subcategory note,
     validate_date date = (true, "") ->
     is_nan amount = true ->
     In category valid_categories ->
     add_expense db date amount category subcategory note
     = (Error "Database error: NOT NULL constraint failed: expenses.amount",
        db)) /\
  (forall db date amount category subcategory note,
     is_nan amount = true ->
     fst (add_expense db date amount category subcategory note)
     <> Error "Amount must be a positive number") /\
  (forall db date amount category subcategory note,
     validate_date date = (true, "") ->
     is_zero amount = true \/ (amount <? 0)%float = true ->
     add_expense db date amount category subcategory note
     = (Error "Amount must be a positive number", db)).
Proof.
  assert (L : forall amount, is_nan amount = true ->
                (amount <=? 0)%float = false).
  { intros amount H. apply FloatFacts.is_nan_spec in H.
    rewrite leb_spec, H. reflexivity. }
  assert (D : forall db date amount category subcategory note,
            validate_date date = (true, "") ->
            is_nan amount = true ->
            In category valid_categories ->
            add_expense db date amount category subcategory note
            = (Error
                 "Database error: NOT NULL constraint failed: expenses.amount",
               db)).
  { intros db date amount category subcategory note Hd Hn Hc.
    rewrite (add_expense_checked _ _ _ _ subcategory note Hd (L _ Hn) Hc).
    unfold Sql.insert, Sql.real. rewrite Hn. reflexivity. }
  split; [reflexivity|]. split; [reflexivity|]. split; [exact D|]. split.
  - intros db date amount category subcategory note Hn.
    destruct (validate_date_cases date) as [Hd|Hd].
    + destruct (in_dec string_dec category valid_categories) as [Hc|Hc].
      * rewrite (D _ _ _ _ subcategory note Hd Hn Hc). discriminate.
      * rewrite add_expense_invalid_category by auto. discriminate.
    + rewrite add_expense_invalid_date by exact Hd. discriminate.
  - intros db date amount category subcategory note.
    apply add_expense_rejects_nonpositive.
Qed.

(** ** The invariant of the table *)

Lemma real_Some f a : Sql.real f = Some a -> a = f /\ is_nan f = false.
Proof.
  unfold Sql.real. destruct (is_nan f); [discriminate|].
  intros [= <-]. auto.
Qed.

Lemma real_not_nan f : is_nan f = false -> Sql.real f = Some f.
Proof. unfold Sql.real. now intros ->. Qed.

(** What a successful insert does to the table. *)
Lemma insert_inl db date amount category subcategory note db' rowid :
  Sql.insert db date amount category subcategory note = inl (db', rowid) ->
  is_nan amount = false /\
  rowid = last_id db + 1 /\
  last_id db' = rowid /\
  rows db' = (rows db ++
    [{| Expense.id := rowid; Expense.date := date; Expense.amount := amount;
        Expense.category := category; Expense.subcategory := subcategory;
        Expense.note := note |}])%list.
Proof.
  unfold Sql.insert. destruct (Sql.real amount) as [a|] eqn:E; [|discriminate].
  apply real_Some in E. destruct E as [-> N].
  intros [= <- <-]. simpl. auto.
Qed.

Lemma add_expense_cases db date amount category subcategory note :
  (snd (add_expense db date amount category subcategory note) = db /\
   exists msg,
     fst (add_expense db date amount category subcategory note) = Error msg)
  \/
  (validate_date date = (true, "") /\
   (amount <=? 0)%float = false /\
   In category valid_categories /\
   exists db',
     Sql.insert db date amount category subcategory note
       = inl (db', last_id db + 1) /\
     add_expense db date amount category subcategory note
       = (Added (last_id db + 1) (added_message category amount date), db')).
Proof.
  destruct (validate_date_cases date) as [Hd|Hd].
  2:{ left. rewrite add_expense_invalid_date by exact Hd. simpl. eauto. }
  destruct (amount <=? 0)%float eqn:Ha.
  { left. rewrite add_expense_invalid_amount by assumption. simpl. eauto. }
  destruct (existsb (String.eqb category) valid_categories) eqn:Hc.
  2:{ left.
      assert (Hn : ~ In category valid_categories)
        by (intros H; apply existsb_eqb_In in H; congruence).
      rewrite add_expense_invalid_category by assumption. simpl. eauto. }
  apply existsb_eqb_In in Hc.
  rewrite (add_expense_checked _ _ _ _ subcategory note Hd Ha Hc).
  destruct (Sql.insert db date amount category subcategory note)
    as [[db' rowid]|e] eqn:E.
  - right. repeat split; auto.
    destruct (insert_inl _ _ _ _ _ _ _ _ E) as (_ & -> & _).
    eauto.
  - left. simpl. eauto.
Qed.

Lemma add_expense_store_ok db date amount category subcategory note :
  store_ok db ->
  store_ok (snd (add_expense db date amount category subcategory note)).
Proof.
  intros Hdb.
  destruct (add_expense_cases db date amount category subcategory note)
    as [[-> _] | (Hd & Ha & Hc & db' & Hi & ->)]; [exact Hdb|].
  simpl. unfold store_ok.
  destruct (insert_inl _ _ _ _ _ _ _ _ Hi) as (N & _ & _ & ->).
  apply Forall_app. split; [exact Hdb|].
  constructor; [|constructor].
  split; simpl; [|exact Hc].
  now apply FloatFacts.not_leb_zero.
Qed.

Lemma add_expense_ids_ok db date amount category subcategory note :
  ids_ok db ->
  ids_ok (snd (add_expense db date amount category subcategory note)).
Proof.
  intros Hdb.
  destruct (add_expense_cases db date amount category subcategory note)
    as [[-> _] | (Hd & Ha & Hc & db' & Hi & ->)]; [exact Hdb|].
  simpl. destruct Hdb as (Hb & Hn & H0).
  destruct (insert_inl _ _ _ _ _ _ _ _ Hi) as (_ & _ & Hl & Hr).
  unfold ids_ok. rewrite Hr, Hl. repeat split.
  - apply Forall_app. split.
    + eapply Forall_impl; [|exact Hb]. simpl. intros r ?. lia.
    + constructor; [simpl; lia | constructor].
  - rewrite map_app. simpl.
    apply NoDup_app_remove_l with (l := []). simpl.
    apply Permutation_NoDup with (l := (last_id db + 1) :: map Expense.id (rows db)).
    + apply Permutation_cons_append.
    + constructor; [|exact Hn].
      intros H. apply in_map_iff in H. destruct H as (r & E & H).
      rewrite Forall_forall in Hb. specialize (Hb r H). lia.
  - lia.
Qed.

Lemma step_store_ok db c : store_ok db -> store_ok (snd (step db c)).
Proof.
  destruct c; simpl; auto. apply add_expense_store_ok.
Qed.

Lemma step_ids_ok db c : ids_ok db -> ids_ok (snd (step db c)).
Proof.
  destruct c; simpl; auto. apply add_expense_ids_ok.
Qed.

Lemma run_invariant (P : store -> Prop) :
  (forall db c, P db -> P (snd (step db c))) ->
  forall calls db, P db -> P (run calls db).
Proof.
  intros Hstep calls. induction calls as [|c calls IH]; intros db H.
  - exact H.
  - simpl. apply IH, Hstep, H.
Qed.

Lemma run_store_ok calls : store_ok (run calls init_db).
Proof.
  apply run_invariant; [exact step_store_ok | constructor].
Qed.

Lemma run_ids_ok calls : ids_ok (run calls init_db).
Proof.
  apply run_invariant; [exact step_ids_ok|].
  repeat split; simpl; try constructor. lia.
Qed.

(** C3. Whatever calls the server has answered since the table was
    created, every row of the table has an amount above 0 and one of the
    nine categories; the two tools that read leave the table as it is, and
    [add_expense] keeps the invariant. *)
Theorem store_invariant :
  (forall calls r,
     In r (rows (run calls init_db)) ->
     (0 <? Expense.amount r)%float = true /\
     In (Expense.category r)
        ["Food"; "Travel"; "Transport"; "Shopping"; "Bills";
         "Healthcare"; "Education"; "Business"; "Other"]) /\
  (forall db start_date end_date category,
     snd (step db (ListExpenses start_date end_date)) = db /\
     snd (step db (Summarize start_date end_date category)) = db) /\
  (forall db date amount category subcategory note,
     store_ok db ->
     store_ok (snd (add_expense db date amount category subcategory note))).
Proof.
  split; [|split].
  - intros calls r H.
    pose proof (run_store_ok calls) as Hok.
    unfold store_ok in Hok. rewrite Forall_forall in Hok.
    exact (Hok r H).
  - intros. split; reflexivity.
  - intros. now apply add_expense_store_ok.
Qed.

Lemma store_invariant_witness :
  Forall valid_record (rows jan_store) /\
  store_ok (snd (add_expense jan_store "2024-02-01" 7.5 "Bills" None None)).
Proof.
  destruct store_invariant as (H1 & _ & H3).
  assert (Hjan : store_ok jan_store).
  { apply Forall_forall. intros r Hr.
    exact (H1 [AddExpense "2024-01-10" 10 "Food" None None;
               AddExpense "2024-01-20" 20 "Travel" None None;
               AddExpense "2024-01-05" 5 "Food" None None] r Hr). }
  split; [exact Hjan|]. apply H3. exact Hjan.
Defined.

(** ** The confirmation message *)

Module FormatFacts.

Lemma digit_char_is_digit d :
  0 <= d <= 9 -> Strptime.is_digit (Format.digit_char d) = true.
Proof.
  intros H.
  assert (E : d = 0 \/ d = 1 \/ d = 2 \/ d = 3 \/ d = 4 \/ d = 5 \/ d = 6 \/
              d = 7 \/ d = 8 \/ d = 9) by lia.
  repeat (destruct E as [->|E]; [reflexivity|]). now subst.
Qed.

Lemma uint_digits d :
  all_digits (DecimalString.NilEmpty.string_of_uint d) = true.
Proof. induction d; simpl; auto. Qed.

Lemma decimal_digits n :
  all_digits (Format.decimal n) = true /\ Format.decimal n <> "".
Proof.
  unfold Format.decimal, DecimalString.NilZero.string_of_uint.
  destruct (N.to_uint (Z.to_N n)) eqn:E;
    try (split; [ simpl; apply uint_digits | simpl; discriminate ]).
  split; [reflexivity | discriminate].
Qed.

Lemma format_2f_finite x m e :
  Prim2SF x = S754_finite false m e -> two_decimals (Format.format_2f x).
Proof.
  intros E. unfold Format.format_2f. rewrite E.
  set (n := Format.hundredths m e).
  exists (Format.decimal (n / 100)),
         (Format.digit_char (n mod 100 / 10)),
         (Format.digit_char ((n mod 100) mod 10)).
  destruct (decimal_digits (n / 100)) as [D N].
  pose proof (Z.mod_pos_bound n 100 ltac:(lia)) as B.
  repeat split; auto.
  - apply digit_char_is_digit.
    pose proof (Z.div_pos (n mod 100) 10 ltac:(lia) ltac:(lia)).
    assert (n mod 100 / 10 < 10) by (apply Z.div_lt_upper_bound; lia).
    lia.
  - apply digit_char_is_digit.
    pose proof (Z.mod_pos_bound (n mod 100) 10 ltac:(lia)). lia.
Qed.

End FormatFacts.

Lemma Prim2SF_infinity : Prim2SF infinity = S754_infinity false.
Proof. reflexivity. Qed.

Lemma is_infinity_spec x :
  is_infinity x = true <-> exists s, Prim2SF x = S754_infinity s.
Proof.
  unfold is_infinity. rewrite eqb_spec, abs_spec, Prim2SF_infinity.
  destruct (Prim2SF x) as [s|s| |s m e]; simpl; split;
    try discriminate; try (intros [s' H]; discriminate H); eauto.
Qed.

(** A positive number is finite or plus infinity. *)
Lemma positive_cases x :
  (0 <? x)%float = true ->
  Prim2SF x = S754_infinity false \/
  exists m e, Prim2SF x = S754_finite false m e.
Proof.
  rewrite ltb_spec, FloatFacts.Prim2SF_zero. unfold SFltb.
  destruct (Prim2SF x) as [s|[]| |[] m e]; simpl; try discriminate; eauto.
Qed.

Lemma positive_not_leb_zero x :
  (0 <? x)%float = true -> (x <=? 0)%float = false /\ is_nan x = false.
Proof.
  intros H. split.
  - rewrite leb_spec, FloatFacts.Prim2SF_zero.
    destruct (positive_cases x H) as [E|(m & e & E)]; now rewrite E.
  - apply FloatFacts.nonneg_not_nan. now apply FloatFacts.ltb_leb.
Qed.

(** A successful call, on any table whose rowids are in order. *)
Lemma add_expense_success_ok db date amount category subcategory note :
  ids_ok db ->
  validate_date date = (true, "") ->
  (0 <? amount)%float = true ->
  In category valid_categories ->
  exists db',
    add_expense db date amount category subcategory note
    = (Added (last_id db + 1) (added_message category amount date), db') /\
    rows db' = (rows db ++
      [{| Expense.id := last_id db + 1; Expense.date := date;
          Expense.amount := amount; Expense.category := category;
          Expense.subcategory := subcategory; Expense.note := note |}])%list /\
    ~ In (last_id db + 1) (map Expense.id (rows db)).
Proof.
  intros Hids Hd Ha Hc.
  destruct (positive_not_leb_zero _ Ha) as [Hle Hnan].
  rewrite (add_expense_checked _ _ _ _ subcategory note Hd Hle Hc).
  unfold Sql.insert. rewrite (real_not_nan _ Hnan).
  eexists. split; [reflexivity|]. split; [reflexivity|].
  intros H. apply in_map_iff in H. destruct H as (r & E & H).
  destruct Hids as (Hb & _). rewrite Forall_forall in Hb.
  specialize (Hb r H). lia.
Qed.

Lemma format_2f_positive amount :
  (0 <? amount)%float = true ->
  (is_infinity amount = false -> two_decimals (Format.format_2f amount)) /\
  (is_infinity amount = true -> Format.format_2f amount = "inf").
Proof.
  intros Ha. split.
  - intros Hfin. destruct (positive_cases _ Ha) as [E|(m & e & E)].
    + assert (is_infinity amount = true) by (apply is_infinity_spec; eauto).
      congruence.
    + eapply FormatFacts.format_2f_finite; eauto.
  - intros Hinf. destruct (positive_cases _ Ha) as [E|(m & e & E)].
    + unfold Format.format_2f. now rewrite E.
    + apply is_infinity_spec in Hinf. destruct Hinf as [s Hs]. congruence.
Qed.

(** C8, as the code has it. On the table as any sequence of calls has
    left it, with a valid date, an amount above 0 and one of the nine
    categories, [add_expense] succeeds: it appends the row under a new
    id, the successor of the largest id given out so far, which no row
    holds, and returns that id with the message
    "Added expense: {category} - ${amount:.2f} on {date}"; the amount is
    rendered with exactly two decimal places when it is finite, and as
    "inf" when it is infinite. *)
Theorem add_expense_success calls date amount category subcategory note :
  validate_date date = (true, "") ->
  (0 <? amount)%float = true ->
  In category valid_categories ->
  exists new_id db',
    add_expense (run calls init_db) date amount category subcategory note
    = (Added new_id
         ("Added expense: " ++ category ++ " - $"
          ++ Format.format_2f amount ++ " on " ++ date), db') /\
    status (fst (add_expense (run calls init_db) date amount category
                   subcategory note)) = "success" /\
    rows db' = (rows (run calls init_db) ++
      [{| Expense.id := new_id; Expense.date := date;
          Expense.amount := amount; Expense.category := category;
          Expense.subcategory := subcategory; Expense.note := note |}])%list /\
    (forall r, In r (rows (run calls init_db)) -> Expense.id r < new_id) /\
    (is_infinity amount = false -> two_decimals (Format.format_2f amount)) /\
    (is_infinity amount = true -> Format.format_2f amount = "inf").
Proof.
  intros Hd Ha Hc.
  pose proof (run_ids_ok calls) as Hids.
  destruct (add_expense_success_ok _ _ _ _ subcategory note Hids Hd Ha Hc)
    as (db' & H & R & _).
  exists (last_id (run calls init_db) + 1), db'.
  rewrite H. split; [reflexivity|]. split; [reflexivity|].
  split; [exact R|]. split.
  - intros r Hr. destruct Hids as (Hb & _).
    rewrite Forall_forall in Hb. specialize (Hb r Hr). lia.
  - now apply format_2f_positive.
Qed.

Lemma add_expense_success_witness :
  exists db',
    add_expense jan_store "2024-01-15" 12.5 "Food" (Some "Lunch") None
    = (Added 4 "Added expense: Food - $12.50 on 2024-01-15", db') /\
    List.length (rows db') = 4%nat.
Proof.
  destruct (add_expense_success
              [AddExpense "2024-01-10" 10 "Food" None None;
               AddExpense "2024-01-20" 20 "Travel" None None;
               AddExpense "2024-01-05" 5 "Food" None None]
              "2024-01-15" 12.5 "Food" (Some "Lunch") None)
    as (new_id & db' & H & _ & R & _).
  - reflexivity.
  - reflexivity.
  - simpl. auto.
  - exists db'. split; [|rewrite R; reflexivity].
    assert (E : new_id = 4) by (clear R; vm_compute in H; now inversion H).
    subst new_id. exact H.
Defined.

(** A record that was added is listed by every range that holds its
    date, with the fields it was given and the id that was returned. *)
Lemma added_record_listed
    calls date amount category subcategory note start_date end_date :
  validate_date date = (true, "") ->
  (0 <? amount)%float = true ->
  In category valid_categories ->
  validate_date start_date = (true, "") ->
  validate_date end_date = (true, "") ->
  String.leb start_date date = true ->
  String.leb date end_date = true ->
  exists new_id message db' expenses,
    add_expense (run calls init_db) date amount category subcategory note
    = (Added new_id message, db') /\
    list_expenses db' start_date end_date
    = Listed (List.length expenses) expenses /\
    In {| Expense.id := new_id; Expense.date := date;
          Expense.amount := amount; Expense.category := category;
          Expense.subcategory := subcategory; Expense.note := note |}
       expenses.
Proof.
  intros Hd Ha Hc Hs He L1 L2.
  destruct (add_expense_success_ok _ _ _ _ subcategory note
              (run_ids_ok calls) Hd Ha Hc) as (db' & H & R & _).
  exists (last_id (run calls init_db) + 1),
         (added_message category amount date), db',
         (Sql.query_range db' start_date end_date).
  split; [exact H|]. split; [now apply list_expenses_valid|].
  unfold Sql.query_range.
  apply OrderFacts.order_by_desc_In, filter_In. split.
  - rewrite R. apply in_or_app. right. now left.
  - unfold Sql.between. simpl. now rewrite L1, L2.
Qed.

(** The claim fails on plus infinity, which passes the three checks and is
    rendered without decimal places, and on a NaN, which passes them and
    is refused by the insert. *)
Lemma add_expense_success_counterexample :
  validate_date "2024-01-15" = (true, "") /\
  (infinity <=? 0)%float = false /\
  (nan <=? 0)%float = false /\
  existsb (String.eqb "Food") valid_categories = true /\
  fst (add_expense init_db "2024-01-15" infinity "Food" None None)
    = Added 1 "Added expense: Food - $inf on 2024-01-15" /\
  fst (add_expense init_db "2024-01-15" nan "Food" None None)
    = Error "Database error: NOT NULL constraint failed: expenses.amount".
Proof. repeat split. Qed.

(** ** The aggregate query *)

Module AggregateFacts.


Lemma group_keys_In c l :
  In c (Aggregate.group_keys l) <-> exists r, In r l /\ Expense.category r = c.
Proof.
  unfold Aggregate.group_keys.
  rewrite OrderFacts.order_by_desc_In, nodup_In, in_map_iff.
  split; intros (r & H1 & H2); exists r; tauto.
Qed.

Lemma group_keys_NoDup l : NoDup (Aggregate.group_keys l).
Proof.
  unfold Aggregate.group_keys.
  eapply Permutation_NoDup.
  - symmetry. apply OrderFacts.order_by_desc_perm.
  - apply NoDup_nodup.
Qed.

Section Range.
Variables (db : store) (start_date end_date : string)
          (category : option string).

Lemma aggregate_perm :
  Permutation
    (Aggregate.aggregate_range db start_date end_date category)
    (map (Aggregate.group_row
            (filter (Aggregate.selected start_date end_date category)
                    (rows db)))
         (Aggregate.group_keys
            (filter (Aggregate.selected start_date end_date category)
                    (rows db)))).
Proof. apply OrderFacts.order_by_desc_perm. Qed.

Lemma aggregate_In g :
  In g (Aggregate.aggregate_range db start_date end_date category) <->
  exists c,
    In c (Aggregate.group_keys
            (filter (Aggregate.selected start_date end_date category)
                    (rows db))) /\
    g = Aggregate.group_row
          (filter (Aggregate.selected start_date end_date category)
                  (rows db)) c.
Proof.
  unfold Aggregate.aggregate_range.
  rewrite OrderFacts.order_by_desc_In, in_map_iff.
  split; intros (c & H1 & H2); exists c; auto.
Qed.

Lemma aggregate_categories :
  Permutation
    (map Group.category
         (Aggregate.aggregate_range db start_date end_date category))
    (Aggregate.group_keys
       (filter (Aggregate.selected start_date end_date category) (rows db))).
Proof.
  rewrite aggregate_perm, map_map. simpl. now rewrite map_id.
Qed.

End Range.

Lemma members_In l c r :
  In r (Aggregate.members l c) <-> In r l /\ Expense.category r = c.
Proof.
  unfold Aggregate.members. rewrite filter_In, String.eqb_eq. tauto.
Qed.





(** [sum] succeeds when no total is [None]. *)
Lemma py_sum_from_numbers items : forall acc,
  Forall (fun o => exists t : float, o = Some t) items ->
  exists total, Py.sum_from acc items = inl total.
Proof.
  induction items as [|o items IH]; intros acc H; simpl; [eauto|].
  inversion H as [|? ? [t ->] H']; subst. simpl. now apply IH.
Qed.


End AggregateFacts.

(** ** summarize *)

Lemma filter_nil_In {A} (f : A -> bool) l :
  (forall x, In x l -> f x = false) -> filter f l = [].
Proof.
  induction l as [|x l IH]; intros H; simpl; [reflexivity|].
  rewrite (H x (or_introl eq_refl)). apply IH.
  intros y Hy. apply H. now right.
Qed.



Lemma filter_filter_and {A} (f g : A -> bool) l :
  filter f (filter g l) = filter (fun x => g x && f x) l.
Proof.
  induction l as [|x l IH]; simpl; [reflexivity|].
  destruct (g x); simpl; [destruct (f x)|]; now rewrite IH.
Qed.





(** C10. For valid dates, when no row of the table matches the range and
    the category filter, [summarize] succeeds with an empty summary and
    the total 0, the [int] that [sum] starts from. *)
Theorem summarize_no_match db start_date end_date category :
  validate_date start_date = (true, "") ->
  validate_date end_date = (true, "") ->
  (forall r, In r (rows db) ->
     Aggregate.selected start_date end_date (truthy category) r = false) ->
  summarize db start_date end_date category
    = Summarized (start_date ++ " to " ++ end_date) (PyInt 0) [] /\
  status (summarize db start_date end_date category) = "success".
Proof.
  intros Hs He Hnone.
  rewrite (summarize_valid _ _ _ _ Hs He).
  unfold Aggregate.aggregate_range.
  rewrite (filter_nil_In _ _ Hnone). simpl. auto.
Qed.

Lemma summarize_no_match_witness :
  summarize jan_store "2023-01-01" "2023-12-31" None
    = Summarized "2023-01-01 to 2023-12-31" (PyInt 0) [] /\
  summarize jan_store "2024-01-01" "2024-01-31" (Some "Bills")
    = Summarized "2024-01-01 to 2024-01-31" (PyInt 0) [] /\
  summarize init_db "2024-01-01" "2024-01-31" (Some "Groceries")
    = Summarized "2024-01-01 to 2024-01-31" (PyInt 0) [].
Proof.
  split; [|split].
  - apply (summarize_no_match jan_store "2023-01-01" "2023-12-31" None);
      try reflexivity.
    intros r Hr. simpl in Hr.
    repeat (destruct Hr as [<-|Hr]; [reflexivity|]). destruct Hr.
  - apply (summarize_no_match jan_store "2024-01-01" "2024-01-31"
             (Some "Bills")); try reflexivity.
    intros r Hr. simpl in Hr.
    repeat (destruct Hr as [<-|Hr]; [reflexivity|]). destruct Hr.
  - apply (summarize_no_match init_db "2024-01-01" "2024-01-31"
             (Some "Groceries")); try reflexivity.
    intros r Hr. destruct Hr.
Defined.

(** ** Facts on the regular expressions of the parser *)

Module StrptimeFacts.
Import Strptime.

Lemma append_assoc (a b c : string) : (a ++ b) ++ c = a ++ (b ++ c).
Proof. induction a as [|x a IH]; simpl; [reflexivity|]. now rewrite IH. Qed.

(** [rmatch] lists exactly the splits of the string into a text of the
    expression and a rest. *)
Lemma rmatch_iff r : forall s t rest,
  In (t, rest) (rmatch r s) <-> matches r t /\ s = t ++ rest.
Proof.
  induction r as [c|lo hi| |r1 IH1 r2 IH2|r1 IH1 r2 IH2]; intros s t rest; simpl.
  - destruct s as [|a s']; simpl.
    + split; [tauto|]. intros [H E]. inversion H; subst. discriminate.
    + destruct (Ascii.eqb a c) eqn:E.
      * apply Ascii.eqb_eq in E. subst a. simpl. split.
        -- intros [[= <- <-]|[]]. split; [constructor | reflexivity].
        -- intros [H E]. inversion H; subst. simpl in E.
           injection E as <-. now left.
      * split; [intros []|]. intros [H E']. inversion H; subst.
        simpl in E'. injection E' as -> _. now rewrite Ascii.eqb_refl in E.
  - destruct s as [|a s']; simpl.
    + split; [tauto|]. intros [H E]. inversion H; subst. discriminate.
    + destruct (in_range lo hi a) eqn:E; simpl.
      * split.
        -- intros [[= <- <-]|[]]. split; [now constructor | reflexivity].
        -- intros [H E']. inversion H; subst. simpl in E'.
           injection E' as <- <-. now left.
      * split; [intros []|]. intros [H E']. inversion H; subst.
        simpl in E'. injection E' as -> _. congruence.
  - destruct s as [|a s']; simpl.
    + split; [tauto|]. intros [H E]. inversion H; subst. discriminate.
    + destruct (is_digit a) eqn:E; simpl.
      * split.
        -- intros [[= <- <-]|[]]. split; [now constructor | reflexivity].
        -- intros [H E']. inversion H; subst. simpl in E'.
           injection E' as <- <-. now left.
      * split; [intros []|]. intros [H E']. inversion H; subst.
        simpl in E'. injection E' as -> _. congruence.
  - rewrite in_flat_map. split.
    + intros ([t1 s1] & H1 & H2). apply in_map_iff in H2.
      destruct H2 as ([t2 s2] & [= <- <-] & H2).
      apply IH1 in H1. apply IH2 in H2.
      destruct H1 as [M1 ->], H2 as [M2 ->].
      split; [now constructor | now rewrite append_assoc].
    + intros [H ->]. inversion H; subst.
      exists (t1, t2 ++ rest). split.
      * apply IH1. split; [assumption | now rewrite append_assoc].
      * apply in_map_iff. exists (t2, rest). split; [reflexivity|].
        apply IH2. auto.
  - rewrite in_app_iff, IH1, IH2. split.
    + intros [[H E]|[H E]]; split; auto; now constructor.
    + intros [H E]. inversion H; subst; auto.
Qed.

Lemma hd_error_In {A} (l : list A) x : hd_error l = Some x -> In x l.
Proof. destruct l; simpl; [discriminate|]. intros [= ->]. now left. Qed.

(** A match of the format splits the string into the three groups. *)
Lemma format_regex_match_sound s y m d rest :
  format_regex_match s = Some (y, m, d, rest) ->
  matches re_Y y /\ matches re_m m /\ matches re_d d /\
  s = y ++ "-" ++ m ++ "-" ++ d ++ rest.
Proof.
  intros H. apply hd_error_In in H. unfold format_regex_match in H.
  apply in_flat_map in H. destruct H as ([y' s1] & Hy & H).
  apply in_flat_map in H. destruct H as ([h1 s2] & Hh1 & H).
  apply in_flat_map in H. destruct H as ([m' s3] & Hm & H).
  apply in_flat_map in H. destruct H as ([h2 s4] & Hh2 & H).
  apply in_map_iff in H. destruct H as ([d' s5] & [= <- <- <- <-] & Hd).
  apply rmatch_iff in Hy, Hh1, Hm, Hh2, Hd.
  destruct Hy as [My ->], Hh1 as [M1 ->], Hm as [Mm ->],
           Hh2 as [M2 ->], Hd as [Md ->].
  inversion M1; subst. inversion M2; subst.
  repeat split; auto.
Qed.

Lemma all_chars_complete c : In c all_chars.
Proof.
  rewrite <- (ascii_nat_embedding c). unfold all_chars.
  apply in_map, in_seq. pose proof (nat_ascii_bounded c). lia.
Qed.

Lemma in_range_enum lo hi c :
  in_range lo hi c = true -> In c (filter (in_range lo hi) all_chars).
Proof. intros H. apply filter_In. split; [apply all_chars_complete | exact H]. Qed.

Ltac enum_char H :=
  apply in_range_enum in H; vm_compute in H;
  repeat (destruct H as [<-|H]; [|]); [..|destruct H].

Ltac invert_matches :=
  repeat match goal with
  | H : matches (Seq _ _) _ |- _ => inversion H; clear H; subst
  | H : matches (Alt _ _) _ |- _ => inversion H; clear H; subst
  | H : matches (Chr _) _ |- _ => inversion H; clear H; subst
  | H : matches (Rng _ _) _ |- _ => inversion H; clear H; subst
  | H : matches Digit _ |- _ => inversion H; clear H; subst
  end.

Lemma month_texts_complete m : matches re_m m -> In m month_texts.
Proof.
  unfold re_m. intros H. invert_matches;
    repeat match goal with
    | H : in_range _ _ _ = true |- _ => enum_char H
    | H : is_digit _ = true |- _ => unfold is_digit in H; enum_char H
    end; simpl; tauto.
Qed.

Lemma day_texts_complete d : matches re_d d -> In d day_texts.
Proof.
  unfold re_d. intros H. invert_matches;
    repeat match goal with
    | H : in_range _ _ _ = true |- _ => enum_char H
    | H : is_digit _ = true |- _ => unfold is_digit in H; enum_char H
    end; simpl; tauto.
Qed.

Lemma rmatch_chr c s : rmatch (Chr c) (String c s) = [(String c "", s)].
Proof. simpl. now rewrite Ascii.eqb_refl. Qed.

(** The year group takes four digits and leaves no choice. *)
Lemma rmatch_year y rest :
  matches re_Y y -> rmatch re_Y (y ++ rest) = [(y, rest)].
Proof.
  unfold re_Y. intros H. invert_matches.
  simpl.
  repeat match goal with
         | H : is_digit _ = true |- _ => rewrite H; clear H; simpl
         end.
  reflexivity.
Qed.

(** After a month text and a hyphen the first way through the month group
    is the whole text. *)
Lemma rmatch_month {A} (G : string -> string -> list A) m d :
  In m month_texts ->
  flat_map (fun '(m', s3) =>
              flat_map (fun '(_, s4) => G m' s4) (rmatch (Chr "-") s3))
           (rmatch re_m (m ++ "-" ++ d))
  = G m d.
Proof.
  intros H. unfold month_texts in H.
  repeat (destruct H as [<-|H]; [simpl; now rewrite ?app_nil_r|]).
  destruct H.
Qed.

(** On a day text the first match of the day group is the whole text. *)
Lemma rmatch_day d :
  In d day_texts -> exists tl, rmatch re_d d = (d, "") :: tl.
Proof.
  intros H. unfold day_texts in H.
  repeat (destruct H as [<-|H]; [vm_compute; eexists; reflexivity|]).
  destruct H.
Qed.

Lemma format_regex_match_complete y m d :
  matches re_Y y -> matches re_m m -> matches re_d d ->
  format_regex_match (y ++ "-" ++ m ++ "-" ++ d) = Some (y, m, d, "").
Proof.
  intros Hy Hm Hd. unfold format_regex_match.
  rewrite (rmatch_year _ _ Hy).
  cbn [flat_map]. rewrite app_nil_r.
  change ("-" ++ m ++ "-" ++ d) with (String "-" (m ++ "-" ++ d)).
  rewrite rmatch_chr. cbn [flat_map]. rewrite app_nil_r.
  etransitivity.
  { apply f_equal.
    apply (rmatch_month
             (fun m' s4 => map (fun '(d', s5) => (y, m', d', s5))
                               (rmatch re_d s4)) m d).
    now apply month_texts_complete. }
  destruct (rmatch_day d (day_texts_complete _ Hd)) as [tl ->].
  reflexivity.
Qed.

Lemma month_texts_sound m : In m month_texts -> matches re_m m.
Proof.
  intros H. apply (rmatch_iff re_m m m "").
  unfold month_texts in H.
  repeat (destruct H as [<-|H]; [vm_compute; tauto|]). destruct H.
Qed.

Lemma day_texts_sound d : In d day_texts -> matches re_d d.
Proof.
  intros H. apply (rmatch_iff re_d d d "").
  unfold day_texts in H.
  repeat (destruct H as [<-|H]; [vm_compute; tauto|]). destruct H.
Qed.

Lemma year_text_iff y :
  matches re_Y y <->
  exists y1 y2 y3 y4,
    y = String y1 (String y2 (String y3 (String y4 ""))) /\
    is_digit y1 = true /\ is_digit y2 = true /\
    is_digit y3 = true /\ is_digit y4 = true.
Proof.
  unfold re_Y. split.
  - intros H. invert_matches. simpl. eauto 10.
  - intros (y1 & y2 & y3 & y4 & -> & H1 & H2 & H3 & H4).
    change (String y1 (String y2 (String y3 (String y4 ""))))
      with (String y1 "" ++ String y2 "" ++ String y3 "" ++ String y4 "").
    repeat constructor; assumption.
Qed.

Lemma strptime_Some s :
  (exists ymd, strptime s = Some ymd) <->
  exists y m d,
    format_regex_match s = Some (y, m, d, "") /\
    check_date_fields (py_int y) (py_int m) (py_int d) = true.
Proof.
  unfold strptime. split.
  - intros [ymd H].
    destruct (format_regex_match s) as [[[[y m] d] rest]|]; [|discriminate].
    destruct rest; [|discriminate].
    destruct (check_date_fields _ _ _) eqn:E; [|discriminate].
    exists y, m, d. auto.
  - intros (y & m & d & -> & ->). eauto.
Qed.

End StrptimeFacts.

(** ** The dates the parser accepts *)

(** C5. The month and day groups of the parser also match one digit, and
    the day group a blank and a digit, so [validate_date] accepts
    "2024-1-5", which is not of the form YYYY-MM-DD. [add_expense] stores
    such a date as it is written, and the range query, which compares
    strings, then misses the row: "2024-1-5" sorts above "2024-01-31". *)
Theorem validate_date_accepts_short_fields :
  validate_date "2024-1-5" = (true, "") /\
  validate_date "2024-01- 5" = (true, "") /\
  validate_date "2024-01-05" = (true, "") /\
  exists db,
    add_expense init_db "2024-1-5" 10 "Food" None None
      = (Added 1 "Added expense: Food - $10.00 on 2024-1-5", db) /\
    map Expense.date (rows db) = ["2024-1-5"] /\
    list_expenses db "2024-01-01" "2024-01-31" = Listed 0 [].
Proof.
  repeat split. eexists. repeat split.
Qed.

(** The strings [validate_date] accepts: four digits for the year, a
    hyphen, a month text, a hyphen, a day text, with the numbers they
    denote a date of the calendar. *)
Theorem validate_date_accepts_iff s :
  validate_date s = (true, "") <->
  exists y1 y2 y3 y4 m d,
    s = String y1 (String y2 (String y3 (String y4 ("-" ++ m ++ "-" ++ d)))) /\
    Strptime.is_digit y1 = true /\ Strptime.is_digit y2 = true /\
    Strptime.is_digit y3 = true /\ Strptime.is_digit y4 = true /\
    In m month_texts /\ In d day_texts /\
    Strptime.check_date_fields
      (Strptime.py_int (String y1 (String y2 (String y3 (String y4 "")))))
      (Strptime.py_int m) (Strptime.py_int d) = true.
Proof.
  split.
  - unfold validate_date. intros H.
    destruct (Strptime.strptime s) as [ymd|] eqn:E; [|discriminate].
    destruct (proj1 (StrptimeFacts.strptime_Some s) (ex_intro _ ymd E))
      as (y & m & d & Hm & Hc).
    apply StrptimeFacts.format_regex_match_sound in Hm.
    destruct Hm as (My & Mm & Md & ->).
    apply StrptimeFacts.year_text_iff in My.
    destruct My as (y1 & y2 & y3 & y4 & -> & H1 & H2 & H3 & H4).
    exists y1, y2, y3, y4, m, d.
    simpl.
    assert (E' : d ++ "" = d).
    { clear. induction d as [|c d IH]; simpl; [reflexivity|]. now rewrite IH. }
    rewrite E'.
    repeat split; auto.
    + now apply StrptimeFacts.month_texts_complete.
    + now apply StrptimeFacts.day_texts_complete.
  - intros (y1 & y2 & y3 & y4 & m & d & -> & H1 & H2 & H3 & H4 & Hm & Hd & Hc).
    assert (My : matches Strptime.re_Y (String y1 (String y2 (String y3 (String y4 "")))))
      by (apply StrptimeFacts.year_text_iff; eauto 10).
    pose proof (StrptimeFacts.format_regex_match_complete _ _ _ My
                  (StrptimeFacts.month_texts_sound _ Hm) (StrptimeFacts.day_texts_sound _ Hd)) as F.
    destruct (proj2 (StrptimeFacts.strptime_Some _)
                (ex_intro _ _ (ex_intro _ _ (ex_intro _ _ (conj F Hc)))))
      as [ymd E].
    change (validate_date
              (String y1 (String y2 (String y3 (String y4 "")))
               ++ "-" ++ m ++ "-" ++ d) = (true, "")).
    unfold validate_date. now rewrite E.
Qed.

Lemma days_in_month_le_31 year month : Strptime.days_in_month year month <= 31.
Proof.
  unfold Strptime.days_in_month.
  repeat match goal with
         | |- context [match ?x with _ => _ end] => destruct x
         end; lia.
Qed.

Lemma two_digits_month m1 m2 :
  Strptime.is_digit m1 = true -> Strptime.is_digit m2 = true ->
  1 <= Strptime.py_int (String m1 (String m2 "")) <= 12 ->
  In (String m1 (String m2 "")) month_texts.
Proof.
  unfold Strptime.is_digit. intros H1 H2.
  StrptimeFacts.enum_char H1; StrptimeFacts.enum_char H2;
    vm_compute; intros [L U]; try tauto;
    exfalso; first [ now apply L | now apply U ].
Qed.

Lemma two_digits_day d1 d2 :
  Strptime.is_digit d1 = true -> Strptime.is_digit d2 = true ->
  1 <= Strptime.py_int (String d1 (String d2 "")) <= 31 ->
  In (String d1 (String d2 "")) day_texts.
Proof.
  unfold Strptime.is_digit. intros H1 H2.
  StrptimeFacts.enum_char H1; StrptimeFacts.enum_char H2;
    vm_compute; intros [L U]; try tauto;
    exfalso; first [ now apply L | now apply U ].
Qed.

(** Every date of the calendar written in the fixed-width form is
    accepted. *)
Lemma validate_date_accepts_fixed_width y1 y2 y3 y4 m1 m2 d1 d2 :
  Strptime.is_digit y1 = true -> Strptime.is_digit y2 = true ->
  Strptime.is_digit y3 = true -> Strptime.is_digit y4 = true ->
  Strptime.is_digit m1 = true -> Strptime.is_digit m2 = true ->
  Strptime.is_digit d1 = true -> Strptime.is_digit d2 = true ->
  Strptime.check_date_fields
    (Strptime.py_int (String y1 (String y2 (String y3 (String y4 "")))))
    (Strptime.py_int (String m1 (String m2 "")))
    (Strptime.py_int (String d1 (String d2 ""))) = true ->
  validate_date
    (String y1 (String y2 (String y3 (String y4
       (String "-" (String m1 (String m2
          (String "-" (String d1 (String d2 "")))))))))) = (true, "").
Proof.
  intros Hy1 Hy2 Hy3 Hy4 Hm1 Hm2 Hd1 Hd2 Hc.
  apply validate_date_accepts_iff.
  exists y1, y2, y3, y4, (String m1 (String m2 "")), (String d1 (String d2 "")).
  pose proof Hc as Hc'. unfold Strptime.check_date_fields in Hc'.
  repeat (apply andb_true_iff in Hc'; destruct Hc' as [Hc' ?]).
  pose proof (days_in_month_le_31
                (Strptime.py_int (String y1 (String y2 (String y3 (String y4 "")))))
                (Strptime.py_int (String m1 (String m2 "")))).
  repeat split; auto.
  - apply two_digits_month; auto. lia.
  - apply two_digits_day; auto. lia.
Qed.

(** ** What the total of summarize adds up *)

Lemma summarize_inv db start_date end_date category period total summary :
  summarize db start_date end_date category
    = Summarized period total summary ->
  validate_date start_date = (true, "") /\
  validate_date end_date = (true, "") /\
  summary = Aggregate.aggregate_range db start_date end_date
              (truthy category) /\
  Py.sum (map Group.total_amount summary) = inl total.
Proof.
  unfold summarize.
  destruct (validate_date_cases start_date) as [Hs|Hs]; rewrite Hs; simpl;
    [|discriminate].
  destruct (validate_date_cases end_date) as [He|He]; rewrite He; simpl;
    [|discriminate].
  destruct (Py.sum _) as [t|e] eqn:E; [|discriminate].
  intros [= _ <- <-]. auto.
Qed.

Lemma filter_or_disjoint {A} (f g : A -> bool) l :
  (forall x, f x = true -> g x = false) ->
  Permutation (filter (fun x => f x || g x) l) (filter f l ++ filter g l).
Proof.
  intros D. induction l as [|x l IH]; simpl; [reflexivity|].
  destruct (f x) eqn:F; simpl.
  - rewrite (D x F). now apply perm_skip.
  - destruct (g x); [|exact IH].
    rewrite IH. apply Permutation_middle.
Qed.

(** The groups of distinct keys split the rows that have one of the
    keys. *)
Lemma members_partition l keys :
  NoDup keys ->
  Permutation (flat_map (Aggregate.members l) keys)
    (filter (fun r => existsb (String.eqb (Expense.category r)) keys) l).
Proof.
  induction 1 as [|c keys Hc N IH]; simpl.
  - now rewrite filter_none.
  - rewrite IH. symmetry. unfold Aggregate.members.
    apply filter_or_disjoint.
    intros r E. apply String.eqb_eq in E. subst c.
    destruct (existsb _ keys) eqn:X; [|reflexivity].
    apply existsb_eqb_In in X. contradiction.
Qed.

Lemma filter_all {A} (f : A -> bool) l :
  (forall x, In x l -> f x = true) -> filter f l = l.
Proof.
  induction l as [|x l IH]; intros H; simpl; [reflexivity|].
  rewrite (H x (or_introl eq_refl)). f_equal. apply IH.
  intros y Hy. apply H. now right.
Qed.

Lemma Permutation_filter {A} (f : A -> bool) l l' :
  Permutation l l' -> Permutation (filter f l) (filter f l').
Proof.
  induction 1 as [|x l l' _ IH|x y l|l l' l'' _ IH1 _ IH2]; simpl.
  - reflexivity.
  - destruct (f x); [now apply perm_skip | exact IH].
  - destruct (f x), (f y); try reflexivity. apply perm_swap.
  - now rewrite IH1.
Qed.

Lemma flat_map_comp {A B C} (f : B -> list C) (h : A -> B) l :
  flat_map (fun x => f (h x)) l = flat_map f (map h l).
Proof.
  induction l as [|x l IH]; simpl; [reflexivity|]. now rewrite IH.
Qed.

(** The total of [summarize] is Python's sum of the totals of the rows of
    its summary; the total of a row is the SUM of the amounts of its
    group; and the groups, taken together, are the records that
    [list_expenses] returns for the same range, restricted to the
    category filter, each record once. *)
Lemma summarize_adds_listed_amounts
    db start_date end_date category period total summary n expenses :
  summarize db start_date end_date category
    = Summarized period total summary ->
  list_expenses db start_date end_date = Listed n expenses ->
  let listed :=
    filter (fun r => match truthy category with
                     | Some c => String.eqb (Expense.category r) c
                     | None => true
                     end) expenses in
  Py.sum (map Group.total_amount summary) = inl total /\
  (forall g, In g summary ->
     Group.total_amount g
     = Sql.sum (map Expense.amount
                  (Aggregate.members
                     (filter (Aggregate.selected start_date end_date
                                (truthy category)) (rows db))
                     (Group.category g)))) /\
  Permutation
    (flat_map (fun g =>
                 Aggregate.members
                   (filter (Aggregate.selected start_date end_date
                              (truthy category)) (rows db))
                   (Group.category g)) summary)
    listed.
Proof.
  intros HS HL listed.
  destruct (summarize_inv _ _ _ _ _ _ _ HS) as (Hs & He & -> & Ht).
  rewrite (list_expenses_valid _ _ _ Hs He) in HL.
  injection HL as _ <-.
  set (matching := filter (Aggregate.selected start_date end_date
                             (truthy category)) (rows db)).
  split; [exact Ht|]. split.
  - intros g Hg. apply AggregateFacts.aggregate_In in Hg.
    destruct Hg as (c & _ & ->). reflexivity.
  - rewrite (flat_map_comp (Aggregate.members matching) Group.category).
    rewrite (AggregateFacts.aggregate_categories db start_date end_date
               (truthy category)).
    rewrite members_partition by apply AggregateFacts.group_keys_NoDup.
    fold matching. rewrite filter_all.
    + unfold listed, Sql.query_range.
      rewrite (Permutation_filter _ _ _
                 (OrderFacts.order_by_desc_perm _ _)).
      rewrite filter_filter_and. reflexivity.
    + intros r Hr. apply existsb_eqb_In.
      apply AggregateFacts.group_keys_In. eauto.
Qed.


(** ** The rounding of a binary64 addition *)

Module RoundFacts.

Local Open Scope Z_scope.













End RoundFacts.

(** ** Sums of amounts in the real numbers *)

Module RealFacts.
Import Reals Lra Real.
Local Open Scope R_scope.





























End RealFacts.

(** ** The summation law *)









(** * Further properties *)

Local Open Scope Z_scope.

(** ** The dates that are accepted *)

(** X1. Among the strings of characters with code points below 256,
    [validate_date] accepts exactly the date texts: four digits, a hyphen,
    a month text ("1" to "9", "01" to "12"), a hyphen and a day text ("1"
    to "9", " 1" to " 9", "01" to "31") that denote a date of the calendar;
    every other such string gets the message about the format. *)
Theorem validate_date_language s :
  (validate_date s = (true, "") <-> date_text s) /\
  (validate_date s = (false, "Date must be in YYYY-MM-DD format (e.g., 2024-01-15)") <->
   ~ date_text s).
Proof.
  pose proof (validate_date_accepts_iff s) as A.
  fold (date_text s) in A. split; [exact A|].
  change "Date must be in YYYY-MM-DD format (e.g., 2024-01-15)" with date_format_message.
  destruct (validate_date_cases s) as [E|E]; rewrite E; split.
  - discriminate.
  - intros N. destruct N. now apply A.
  - intros _ D. apply A in D. congruence.
  - reflexivity.
Qed.

(** ** Dates in the fixed-width form *)

Module IsoFacts.

Lemma code_digit_char k :
  0 <= k <= 9 -> Strptime.code (Format.digit_char k) = 48 + k.
Proof.
  intros H.
  assert (E : k = 0 \/ k = 1 \/ k = 2 \/ k = 3 \/ k = 4 \/ k = 5 \/ k = 6 \/
              k = 7 \/ k = 8 \/ k = 9) by lia.
  repeat (destruct E as [->|E]; [reflexivity|]). now subst.
Qed.

Lemma py_int_digit c s :
  Strptime.is_digit c = true ->
  Strptime.py_int (String c s) = Strptime.int_digits 0 (String c s).
Proof.
  unfold Strptime.is_digit. intros H.
  StrptimeFacts.enum_char H; reflexivity.
Qed.

Lemma py_int_pad4 n : 0 <= n <= 9999 -> Strptime.py_int (pad4 n) = n.
Proof.
  intros H. unfold pad4.
  rewrite py_int_digit
    by (apply FormatFacts.digit_char_is_digit;
        Z.to_euclidean_division_equations; lia).
  cbn [Strptime.int_digits]. rewrite !code_digit_char
    by (Z.to_euclidean_division_equations; lia).
  Z.to_euclidean_division_equations; lia.
Qed.

Lemma py_int_two_digits n :
  0 <= n <= 99 -> Strptime.py_int (Format.two_digits n) = n.
Proof.
  intros H. unfold Format.two_digits.
  rewrite py_int_digit
    by (apply FormatFacts.digit_char_is_digit;
        Z.to_euclidean_division_equations; lia).
  cbn [Strptime.int_digits]. rewrite !code_digit_char
    by (Z.to_euclidean_division_equations; lia).
  Z.to_euclidean_division_equations; lia.
Qed.

Lemma check_date_fields_bounds year month day :
  Strptime.check_date_fields year month day = true ->
  1 <= year <= 9999 /\ 1 <= month <= 12 /\ 1 <= day <= 31.
Proof.
  unfold Strptime.check_date_fields, Strptime.MINYEAR, Strptime.MAXYEAR.
  intros H.
  repeat (apply andb_true_iff in H; destruct H as [H ?]).
  pose proof (days_in_month_le_31 year month). lia.
Qed.

Lemma two_digits_are_digits n :
  0 <= n <= 99 ->
  exists c1 c2, Format.two_digits n = String c1 (String c2 "") /\
                Strptime.is_digit c1 = true /\ Strptime.is_digit c2 = true.
Proof.
  intros H. unfold Format.two_digits. do 2 eexists. split; [reflexivity|].
  split; apply FormatFacts.digit_char_is_digit;
    Z.to_euclidean_division_equations; lia.
Qed.

(** The parser reads a date in ISO form back. *)
Lemma strptime_isoformat year month day :
  Strptime.check_date_fields year month day = true ->
  Strptime.strptime (isoformat year month day) = Some (year, month, day).
Proof.
  intros H. destruct (check_date_fields_bounds _ _ _ H) as (By & Bm & Bd).
  assert (My : matches Strptime.re_Y (pad4 year)).
  { apply StrptimeFacts.year_text_iff. unfold pad4. do 4 eexists.
    split; [reflexivity|].
    repeat split; apply FormatFacts.digit_char_is_digit;
      Z.to_euclidean_division_equations; lia. }
  assert (Mm : matches Strptime.re_m (Format.two_digits month)).
  { apply StrptimeFacts.month_texts_sound.
    destruct (two_digits_are_digits month) as (c1 & c2 & E & D1 & D2); [lia|].
    pose proof (py_int_two_digits month ltac:(lia)) as P.
    rewrite E in *. apply two_digits_month; auto. lia. }
  assert (Md : matches Strptime.re_d (Format.two_digits day)).
  { apply StrptimeFacts.day_texts_sound.
    destruct (two_digits_are_digits day) as (c1 & c2 & E & D1 & D2); [lia|].
    pose proof (py_int_two_digits day ltac:(lia)) as P.
    rewrite E in *. apply two_digits_day; auto. lia. }
  unfold Strptime.strptime, isoformat.
  rewrite (StrptimeFacts.format_regex_match_complete _ _ _ My Mm Md).
  rewrite py_int_pad4, !py_int_two_digits by lia.
  now rewrite H.
Qed.

End IsoFacts.

(** X2. Round trip of the date format: a date of the calendar written in
    the fixed-width form YYYY-MM-DD has ten characters, is parsed back to
    the same year, month and day, and is accepted by [validate_date]. *)
Theorem validate_date_isoformat year month day :
  Strptime.check_date_fields year month day = true ->
  Strptime.strptime (isoformat year month day) = Some (year, month, day) /\
  validate_date (isoformat year month day) = (true, "") /\
  String.length (isoformat year month day) = 10%nat.
Proof.
  intros H. pose proof (IsoFacts.strptime_isoformat _ _ _ H) as E.
  split; [exact E|]. split.
  - unfold validate_date. now rewrite E.
  - reflexivity.
Qed.

Lemma validate_date_isoformat_witness :
  Strptime.strptime "2024-02-29" = Some (2024, 2, 29) /\
  validate_date "2024-02-29" = (true, "").
Proof.
  destruct (validate_date_isoformat 2024 2 29) as (H1 & H2 & _);
    [reflexivity|].
  split; [exact H1 | exact H2].
Defined.

(** *** The order of strings on dates in the fixed-width form *)

Module OrderIso.

Lemma compare_digit_char k k' :
  0 <= k <= 9 -> 0 <= k' <= 9 ->
  Ascii.compare (Format.digit_char k) (Format.digit_char k') = (k ?= k').
Proof.
  intros H H'. unfold Ascii.compare, Format.digit_char.
  rewrite !N_ascii_embedding by lia.
  rewrite Z2N.inj_compare by lia.
  apply Z.add_compare_mono_l.
Qed.

Lemma ymd_leb_spec y m d y' m' d' :
  ymd_leb (y, m, d) (y', m', d') = true <->
  y < y' \/ (y = y' /\ (m < m' \/ (m = m' /\ d <= d'))).
Proof.
  unfold ymd_leb.
  rewrite !orb_true_iff, !andb_true_iff, !orb_true_iff, !andb_true_iff.
  rewrite !Z.ltb_lt, !Z.eqb_eq, Z.leb_le. tauto.
Qed.

Lemma isoformat_leb y m d y' m' d' :
  0 <= y <= 9999 -> 0 <= m <= 99 -> 0 <= d <= 99 ->
  0 <= y' <= 9999 -> 0 <= m' <= 99 -> 0 <= d' <= 99 ->
  String.leb (isoformat y m d) (isoformat y' m' d') =
  ymd_leb (y, m, d) (y', m', d').
Proof.
  intros By Bm Bd By' Bm' Bd'.
  unfold String.leb, isoformat, pad4, Format.two_digits.
  cbn [append String.compare].
  rewrite !compare_digit_char by (Z.to_euclidean_division_equations; lia).
  change (Ascii.compare "-" "-") with Eq. cbv iota.
  destruct (ymd_leb (y, m, d) (y', m', d')) eqn:E.
  - apply ymd_leb_spec in E.
    repeat match goal with
           | |- context [?a ?= ?b] => destruct (Z.compare_spec a b)
           end; try reflexivity; exfalso;
      Z.to_euclidean_division_equations; lia.
  - assert (N : ~ (y < y' \/ (y = y' /\ (m < m' \/ (m = m' /\ d <= d')))))
      by (rewrite <- ymd_leb_spec, E; discriminate).
    repeat match goal with
           | |- context [?a ?= ?b] => destruct (Z.compare_spec a b)
           end; try reflexivity; exfalso;
      Z.to_euclidean_division_equations; lia.
Qed.

End OrderIso.

(** *** Listing between two dates of the calendar *)

(** X3. For dates written in the fixed-width form the order of strings
    is the order of the calendar: [list_expenses] between two such dates
    returns, of the rows with such dates, exactly the ones that lie between
    the two dates in the calendar. *)
Theorem list_expenses_chronological db ys ms ds ye me de :
  Strptime.check_date_fields ys ms ds = true ->
  Strptime.check_date_fields ye me de = true ->
  exists expenses,
    list_expenses db (isoformat ys ms ds) (isoformat ye me de)
    = Listed (List.length expenses) expenses /\
    forall r y m d,
      Strptime.check_date_fields y m d = true ->
      Expense.date r = isoformat y m d ->
      (In r expenses <->
       In r (rows db) /\
       ymd_leb (ys, ms, ds) (y, m, d) = true /\
       ymd_leb (y, m, d) (ye, me, de) = true).
Proof.
  intros Hs He.
  exists (Sql.query_range db (isoformat ys ms ds) (isoformat ye me de)).
  split.
  - apply list_expenses_valid; unfold validate_date;
      now rewrite IsoFacts.strptime_isoformat.
  - intros r y m d Hd E.
    destruct (IsoFacts.check_date_fields_bounds _ _ _ Hs) as (? & ? & ?).
    destruct (IsoFacts.check_date_fields_bounds _ _ _ He) as (? & ? & ?).
    destruct (IsoFacts.check_date_fields_bounds _ _ _ Hd) as (? & ? & ?).
    unfold Sql.query_range. rewrite OrderFacts.order_by_desc_In.
    rewrite filter_In. unfold Sql.between. rewrite E, andb_true_iff.
    rewrite !OrderIso.isoformat_leb by lia. tauto.
Qed.

Lemma list_expenses_chronological_witness :
  exists expenses,
    list_expenses jan_store "2024-01-06" "2024-01-31"
    = Listed (List.length expenses) expenses /\
    map Expense.id expenses = [2; 1].
Proof.
  destruct (list_expenses_chronological jan_store 2024 1 6 2024 1 31)
    as (expenses & H & _); [reflexivity | reflexivity |].
  exists expenses. split; [exact H|].
  inversion H. reflexivity.
Defined.

(** *** The amount of the message *)

Lemma round_half_even_nearest n d :
  0 < d -> 2 * Z.abs (Format.round_half_even n d * d - n) <= d.
Proof.
  intros Hd. unfold Format.round_half_even.
  pose proof (Z.div_mod n d ltac:(lia)) as E.
  pose proof (Z.mod_pos_bound n d Hd) as B.
  destruct (Z.compare_spec (2 * (n mod d)) d) as [C|C|C];
    [destruct (Z.even (n / d))| |]; nia.
Qed.

Lemma round_half_even_nonneg n d :
  0 < d -> 0 <= n -> 0 <= Format.round_half_even n d.
Proof.
  intros Hd Hn. unfold Format.round_half_even.
  pose proof (Z.div_pos n d Hn Hd).
  destruct (2 * (n mod d) ?= d); [destruct (Z.even (n / d))| |]; lia.
Qed.

(** X4. The amount in the message of [add_expense]: a finite amount
    [m * 2^e] above 0 is shown as whole units, a point and two digits of a
    number of cents that is at most half a cent away from the amount. *)
Theorem format_2f_nearest_cent amount :
  (0 <? amount)%float = true ->
  is_infinity amount = false ->
  exists m e cents,
    Prim2SF amount = S754_finite false m e /\
    Format.format_2f amount
    = Format.decimal (cents / 100) ++ "." ++ Format.two_digits (cents mod 100) /\
    0 <= cents /\
    2 * Z.abs (cents * 2 ^ Z.max 0 (- e) - 100 * Zpos m * 2 ^ Z.max 0 e)
    <= 2 ^ Z.max 0 (- e).
Proof.
  intros Hp Hf.
  destruct (positive_cases _ Hp) as [E|(m & e & E)].
  - assert (is_infinity amount = true) by (apply is_infinity_spec; eauto).
    congruence.
  - exists m, e, (Format.hundredths m e). split; [exact E|]. split.
    + unfold Format.format_2f. now rewrite E.
    + unfold Format.hundredths. destruct (0 <=? e) eqn:L.
      * apply Z.leb_le in L.
        rewrite (Z.max_l 0 (- e)), (Z.max_r 0 e) by lia.
        pose proof (Z.pow_pos_nonneg 2 e ltac:(lia) L).
        split; [nia|]. simpl (2 ^ 0).
        replace (Z.pos m * 100 * 2 ^ e * 1 - 100 * Z.pos m * 2 ^ e) with 0
          by ring. simpl. lia.
      * apply Z.leb_gt in L.
        rewrite (Z.max_r 0 (- e)), (Z.max_l 0 e) by lia.
        pose proof (Z.pow_pos_nonneg 2 (- e) ltac:(lia) ltac:(lia)) as P.
        split; [apply round_half_even_nonneg; lia|].
        pose proof (round_half_even_nearest (Z.pos m * 100) (2 ^ (- e)) P).
        simpl (2 ^ 0).
        replace (100 * Z.pos m * 1) with (Z.pos m * 100) by ring. exact H.
Qed.

Lemma format_2f_nearest_cent_witness :
  exists m e cents,
    Prim2SF 0x1.5666666666666p+1%float = S754_finite false m e /\
    Format.format_2f 0x1.5666666666666p+1%float
    = Format.decimal (cents / 100) ++ "." ++ Format.two_digits (cents mod 100) /\
    0 <= cents /\
    2 * Z.abs (cents * 2 ^ Z.max 0 (- e) - 100 * Zpos m * 2 ^ Z.max 0 e)
    <= 2 ^ Z.max 0 (- e).
Proof.
  apply (format_2f_nearest_cent 0x1.5666666666666p+1%float); reflexivity.
Defined.

(** *** When add_expense succeeds *)

(** X5. [add_expense] answers "success" exactly when the date is valid,
    the amount is above 0 (which NaN is not) and the category is one of the
    nine; then the table gains one row at its end, with the arguments as
    its fields and the returned id, and the message names category, amount
    and date; on every error the table is the one that went in. *)
Theorem add_expense_succeeds_iff db date amount category subcategory note :
  (status (fst (add_expense db date amount category subcategory note))
     = "success" <->
   validate_date date = (true, "") /\
   (0 <? amount)%float = true /\
   In category valid_categories) /\
  (status (fst (add_expense db date amount category subcategory note))
     = "success" ->
   exists r,
     rows (snd (add_expense db date amount category subcategory note))
       = (rows db ++ [r])%list /\
     fst (add_expense db date amount category subcategory note)
       = Added (Expense.id r) (added_message category amount date) /\
     Expense.date r = date /\ Expense.amount r = amount /\
     Expense.category r = category /\
     Expense.subcategory r = subcategory /\ Expense.note r = note) /\
  (status (fst (add_expense db date amount category subcategory note))
     = "error" ->
   snd (add_expense db date amount category subcategory note) = db).
Proof.
  destruct (add_expense_cases db date amount category subcategory note)
    as [[Hdb [msg Hmsg]] | (Hd & Ha & Hc & db' & Hi & H)].
  - rewrite Hmsg. simpl. split; [|split].
    + split; [discriminate|]. intros (Hd & Ha & Hc). exfalso.
      destruct (positive_not_leb_zero _ Ha) as [Hle Hnan].
      rewrite (add_expense_checked _ _ _ _ subcategory note Hd Hle Hc)
        in Hmsg.
      unfold Sql.insert in Hmsg. rewrite (real_not_nan _ Hnan) in Hmsg.
      discriminate.
    + discriminate.
    + intros _. exact Hdb.
  - rewrite H. simpl.
    destruct (insert_inl _ _ _ _ _ _ _ _ Hi) as (Hnan & _ & _ & Hr).
    split; [|split].
    + split; [|reflexivity]. intros _. repeat split; auto.
      now apply FloatFacts.not_leb_zero.
    + intros _. eexists. split; [exact Hr|]. simpl. repeat split.
    + discriminate.
Qed.

(** *** The errors of add_expense *)

Lemma nan_not_leb_zero x : is_nan x = true -> (x <=? 0)%float = false.
Proof.
  intros H. apply FloatFacts.is_nan_spec in H.
  rewrite leb_spec, H. reflexivity.
Qed.

Lemma insert_nan db date amount category subcategory note :
  is_nan amount = true ->
  Sql.insert db date amount category subcategory note
  = inr "NOT NULL constraint failed: expenses.amount".
Proof.
  intros H. unfold Sql.insert.
  destruct (Sql.real amount) as [a|] eqn:E; [|reflexivity].
  apply real_Some in E. destruct E as [_ E]. congruence.
Qed.

(** X6. The errors of [add_expense], each with its condition: the
    message about the date format for a date that is not accepted; then
    "Amount must be a positive number" for an amount at or below 0; then
    the list of the nine categories for a category outside it; and the
    database error of the NOT NULL constraint on the amount, which is
    reached by NaN and by nothing else. No other error occurs. *)
Theorem add_expense_error_iff
    db date amount category subcategory note msg :
  fst (add_expense db date amount category subcategory note) = Error msg <->
  (validate_date date
     = (false, "Date must be in YYYY-MM-DD format (e.g., 2024-01-15)") /\
   msg = "Date must be in YYYY-MM-DD format (e.g., 2024-01-15)") \/
  (validate_date date = (true, "") /\ (amount <=? 0)%float = true /\
   msg = "Amount must be a positive number") \/
  (validate_date date = (true, "") /\ (amount <=? 0)%float = false /\
   ~ In category valid_categories /\
   msg = "Invalid category. Must be one of: Food, Travel, Transport, Shopping, Bills, Healthcare, Education, Business, Other") \/
  (validate_date date = (true, "") /\ is_nan amount = true /\
   In category valid_categories /\
   msg = "Database error: NOT NULL constraint failed: expenses.amount").
Proof.
  destruct (validate_date_cases date) as [Hd|Hd].
  2:{ rewrite add_expense_invalid_date by exact Hd. simpl.
      change date_format_message
        with "Date must be in YYYY-MM-DD format (e.g., 2024-01-15)" in *.
      rewrite Hd. split.
      - intros [= <-]. left. auto.
      - intros [[_ ->]|[[E _]|[[E _]|[E _]]]]; [reflexivity|discriminate..]. }
  destruct (amount <=? 0)%float eqn:Ha.
  { rewrite add_expense_invalid_amount by assumption. simpl. rewrite Hd. split.
    - intros [= <-]. right. left. auto.
    - intros [[E _]|[(_ & _ & ->)|[(_ & E & _)|(_ & E & _)]]];
        [discriminate | reflexivity | discriminate |].
      apply nan_not_leb_zero in E. congruence. }
  destruct (in_dec string_dec category valid_categories) as [Hc|Hc].
  2:{ rewrite add_expense_invalid_category by assumption. simpl. rewrite Hd.
      split.
      - intros [= <-]. right. right. left. auto.
      - intros [[E _]|[(_ & E & _)|[(_ & _ & _ & ->)|(_ & _ & E & _)]]];
          [discriminate | discriminate | reflexivity | contradiction]. }
  rewrite (add_expense_checked _ _ _ _ subcategory note Hd Ha Hc), Hd.
  destruct (is_nan amount) eqn:Hn.
  - rewrite insert_nan by exact Hn. simpl. split.
    + intros [= <-]. right. right. right. auto.
    + intros [[E _]|[(_ & E & _)|[(_ & _ & E & _)|(_ & _ & _ & ->)]]];
        [discriminate | discriminate | contradiction | reflexivity].
  - unfold Sql.insert. rewrite (real_not_nan _ Hn). simpl. split.
    + discriminate.
    + intros [[E _]|[(_ & E & _)|[(_ & _ & E & _)|(_ & E & _)]]];
        [discriminate | discriminate | contradiction | discriminate].
Qed.

(** *** The ids of the table *)

Lemma first_ids_S n : first_ids (S n) = (first_ids n ++ [Z.of_nat n + 1])%list.
Proof.
  unfold first_ids. rewrite seq_S, map_app. simpl.
  do 2 f_equal. lia.
Qed.

Lemma add_expense_ids_consecutive db date amount category subcategory note :
  ids_consecutive db ->
  ids_consecutive (snd (add_expense db date amount category subcategory note)).
Proof.
  intros [Hm Hl].
  destruct (add_expense_cases db date amount category subcategory note)
    as [[-> _] | (_ & _ & _ & db' & Hi & ->)]; [now split|].
  simpl. destruct (insert_inl _ _ _ _ _ _ _ _ Hi) as (_ & _ & Hl' & Hr).
  unfold ids_consecutive. rewrite Hr, Hl', length_app, map_app, Hm. simpl.
  rewrite Nat.add_1_r, first_ids_S, Hl. split; [reflexivity | lia].
Qed.

(** X7. Whatever calls were made on a new table, the ids of its rows are
    1, 2, ..., n in row order, and the counter stands at n: a failed call
    uses up no id. *)
Theorem ids_are_consecutive calls :
  map Expense.id (rows (run calls init_db))
    = map Z.of_nat (seq 1 (List.length (rows (run calls init_db)))) /\
  last_id (run calls init_db)
    = Z.of_nat (List.length (rows (run calls init_db))).
Proof.
  apply (run_invariant ids_consecutive).
  - intros db c H. destruct c; simpl; auto.
    now apply add_expense_ids_consecutive.
  - split; reflexivity.
Qed.

(** *** Records are permanent *)

Lemma step_appends db c :
  exists added, rows (snd (step db c)) = (rows db ++ added)%list /\
                (List.length added <= 1)%nat.
Proof.
  destruct c as [date amount category subcategory note| |]; simpl;
    try (exists []; rewrite app_nil_r; split; [reflexivity | simpl; lia]).
  destruct (add_expense_cases db date amount category subcategory note)
    as [[-> _] | (_ & _ & _ & db' & Hi & ->)].
  - exists []. rewrite app_nil_r. split; [reflexivity | simpl; lia].
  - simpl. destruct (insert_inl _ _ _ _ _ _ _ _ Hi) as (_ & _ & _ & Hr).
    eexists. split; [exact Hr | simpl; lia].
Qed.

(** X8. No call removes or changes a row: after any calls the table is
    the old table followed by new rows, at most one for each call. *)
Theorem rows_are_permanent calls : forall db,
  exists added,
    rows (run calls db) = (rows db ++ added)%list /\
    (List.length added <= List.length calls)%nat.
Proof.
  induction calls as [|c calls IH]; intros db; simpl.
  - exists []. rewrite app_nil_r. split; [reflexivity | simpl; lia].
  - destruct (step_appends db c) as (a1 & H1 & L1).
    destruct (IH (snd (step db c))) as (a2 & H2 & L2).
    exists (a1 ++ a2)%list. unfold run in *. simpl.
    rewrite H2, H1, <- app_assoc, length_app. split; [reflexivity | lia].
Qed.

(** *** Adding and listing *)

(** X9. After a successful [add_expense] a listing over valid dates shows
    the new row together with the rows it showed before when the new date
    lies in the range, and what it showed before when it does not. *)
Theorem add_expense_extends_listing
    db date amount category subcategory note new_id message db'
    start_date end_date :
  add_expense db date amount category subcategory note
    = (Added new_id message, db') ->
  validate_date start_date = (true, "") ->
  validate_date end_date = (true, "") ->
  exists before after,
    list_expenses db start_date end_date
      = Listed (List.length before) before /\
    list_expenses db' start_date end_date
      = Listed (List.length after) after /\
    (String.leb start_date date && String.leb date end_date = true ->
     Permutation after
       ({| Expense.id := new_id; Expense.date := date;
           Expense.amount := amount; Expense.category := category;
           Expense.subcategory := subcategory; Expense.note := note |}
        :: before)) /\
    (String.leb start_date date && String.leb date end_date = false ->
     after = before).
Proof.
  intros H Hs He.
  destruct (add_expense_cases db date amount category subcategory note)
    as [[_ [msg Hmsg]] | (_ & _ & _ & db'' & Hi & H')].
  { rewrite H in Hmsg. discriminate. }
  rewrite H in H'. injection H' as -> _ <-.
  destruct (insert_inl _ _ _ _ _ _ _ _ Hi) as (_ & _ & _ & Hr).
  exists (Sql.query_range db start_date end_date),
         (Sql.query_range db' start_date end_date).
  split; [now apply list_expenses_valid|].
  split; [now apply list_expenses_valid|].
  unfold Sql.query_range. rewrite Hr, filter_app. simpl.
  change (Sql.between date start_date end_date)
    with (String.leb start_date date && String.leb date end_date).
  split; intros ->.
  - rewrite !OrderFacts.order_by_desc_perm.
    symmetry. apply Permutation_cons_append.
  - now rewrite app_nil_r.
Qed.

Lemma add_expense_extends_listing_witness :
  exists before after,
    list_expenses jan_store "2024-01-01" "2024-01-31"
      = Listed (List.length before) before /\
    list_expenses
      (snd (add_expense jan_store "2024-01-15" 7%float "Bills" None None))
      "2024-01-01" "2024-01-31"
      = Listed (List.length after) after /\
    Permutation after
      ({| Expense.id := 4; Expense.date := "2024-01-15";
          Expense.amount := 7%float; Expense.category := "Bills";
          Expense.subcategory := None; Expense.note := None |} :: before).
Proof.
  destruct (add_expense_extends_listing jan_store "2024-01-15" 7%float "Bills"
              None None 4 (added_message "Bills" 7%float "2024-01-15")
              (snd (add_expense jan_store "2024-01-15" 7%float "Bills"
                      None None))
              "2024-01-01" "2024-01-31")
    as (before & after & H1 & H2 & H3 & _);
    [reflexivity | reflexivity | reflexivity |].
  exists before, after.
  split; [exact H1|]. split; [exact H2|]. apply H3. reflexivity.
Defined.

Lemma filter_length_le {A} (f g : A -> bool) l :
  (forall x, f x = true -> g x = true) ->
  (List.length (filter f l) <= List.length (filter g l))%nat.
Proof.
  intros H. induction l as [|x l IH]; simpl; [lia|].
  destruct (f x) eqn:F.
  - rewrite (H x F). simpl. lia.
  - destruct (g x); simpl; lia.
Qed.

(** X10. A wider range lists more: when both listings succeed and the
    second range contains the first, every row of the first listing is in
    the second and the count does not go down. *)
Theorem list_expenses_monotone
    db start_date end_date start_date' end_date' n l n' l' :
  list_expenses db start_date end_date = Listed n l ->
  list_expenses db start_date' end_date' = Listed n' l' ->
  String.leb start_date' start_date = true ->
  String.leb end_date end_date' = true ->
  (forall r, In r l -> In r l') /\ (n <= n')%nat.
Proof.
  intros H H' Ls Le.
  assert (V : forall s e k x, list_expenses db s e = Listed k x ->
              validate_date s = (true, "") /\ validate_date e = (true, "")).
  { intros s e k x. unfold list_expenses.
    destruct (validate_date_cases s) as [E|E]; rewrite E; simpl;
      [|discriminate].
    destruct (validate_date_cases e) as [E'|E']; rewrite E'; simpl;
      [auto | discriminate]. }
  destruct (V _ _ _ _ H) as [V1 V2], (V _ _ _ _ H') as [V1' V2'].
  rewrite (list_expenses_valid _ _ _ V1 V2) in H.
  rewrite (list_expenses_valid _ _ _ V1' V2') in H'.
  injection H as <- <-. injection H' as <- <-.
  assert (W : forall r, Sql.between (Expense.date r) start_date end_date = true ->
              Sql.between (Expense.date r) start_date' end_date' = true).
  { intros r B. unfold Sql.between in *.
    apply andb_true_iff in B. destruct B as [B1 B2].
    rewrite (StringFacts.string_leb_trans _ _ _ Ls B1).
    now rewrite (StringFacts.string_leb_trans _ _ _ B2 Le). }
  split.
  - intros r Hr. unfold Sql.query_range in *.
    apply OrderFacts.order_by_desc_In, filter_In in Hr.
    apply OrderFacts.order_by_desc_In, filter_In.
    destruct Hr as [Hin B]. split; [exact Hin | now apply W].
  - unfold Sql.query_range.
    rewrite !(Permutation_length (OrderFacts.order_by_desc_perm _ _)).
    now apply filter_length_le.
Qed.

Lemma list_expenses_monotone_witness :
  (forall r,
     In r (Sql.query_range jan_store "2024-01-05" "2024-01-10") ->
     In r (Sql.query_range jan_store "2024-01-01" "2024-01-31")) /\
  (2 <= 3)%nat.
Proof.
  apply (list_expenses_monotone jan_store
           "2024-01-05" "2024-01-10" "2024-01-01" "2024-01-31");
    reflexivity.
Defined.

(** *** The counts of the summary *)

(** X11. The counts of the summary add up to the number of rows that
    [list_expenses] returns for the same range and that pass the category
    filter; without a filter, to the count of the listing. *)
Theorem summarize_counts_add_up
    db start_date end_date category period total summary n expenses :
  summarize db start_date end_date category
    = Summarized period total summary ->
  list_expenses db start_date end_date = Listed n expenses ->
  list_sum (map Group.count summary)
    = List.length
        (filter (fun r => match truthy category with
                          | Some c => String.eqb (Expense.category r) c
                          | None => true
                          end) expenses) /\
  (truthy category = None -> list_sum (map Group.count summary) = n).
Proof.
  intros HS HL.
  destruct (summarize_adds_listed_amounts _ _ _ _ _ _ _ _ _ HS HL)
    as (_ & _ & Hp).
  destruct (summarize_inv _ _ _ _ _ _ _ HS) as (Hs & He & E & _).
  set (matching := filter (Aggregate.selected start_date end_date
                             (truthy category)) (rows db)) in *.
  assert (C : list_sum (map Group.count summary)
              = List.length
                  (flat_map (fun g => Aggregate.members matching
                                        (Group.category g)) summary)).
  { assert (G : forall g, In g summary ->
                  Group.count g
                  = List.length (Aggregate.members matching (Group.category g))).
    { intros g Hg. rewrite E in Hg. apply AggregateFacts.aggregate_In in Hg.
      destruct Hg as (c & _ & ->). reflexivity. }
    clear - G. induction summary as [|g l IH]; simpl; [reflexivity|].
    rewrite length_app, IH, (G g); auto.
    - now left.
    - intros x Hx. apply G. now right. }
  rewrite C, (Permutation_length Hp). split; [reflexivity|].
  intros T. rewrite T. rewrite filter_all by reflexivity.
  rewrite (list_expenses_valid _ _ _ Hs He) in HL.
  injection HL as <- <-. reflexivity.
Qed.

Lemma summarize_counts_add_up_witness :
  list_sum
    (map Group.count
       (Aggregate.aggregate_range jan_store "2024-01-01" "2024-01-31" None))
  = 3%nat.
Proof.
  refine (proj2 (summarize_counts_add_up jan_store "2024-01-01" "2024-01-31"
                   None "2024-01-01 to 2024-01-31" (PyFloat 35%float)
                   (Aggregate.aggregate_range jan_store
                      "2024-01-01" "2024-01-31" None)
                   3 (Sql.query_range jan_store "2024-01-01" "2024-01-31")
                   _ _) eq_refl); reflexivity.
Defined.

(** *** The category filter of summarize *)

Lemma nodup_constant (c : string) l :
  (forall x, In x l -> x = c) ->
  nodup string_dec l = match l with [] => [] | _ => [c] end.
Proof.
  induction l as [|x l IH]; intros H; simpl; [reflexivity|].
  assert (Hx : x = c) by (apply H; now left). subst x.
  rewrite IH by (intros y Hy; apply H; now right).
  destruct (in_dec string_dec c l) as [Hin|Hn].
  - destruct l; [destruct Hin | reflexivity].
  - destruct l as [|y l]; [reflexivity|].
    exfalso. apply Hn. left. apply H. right. now left.
Qed.

Lemma NoDup_filter_single {A} (f : A -> string) l g :
  NoDup (map f l) -> In g l ->
  filter (fun x => String.eqb (f x) (f g)) l = [g].
Proof.
  induction l as [|x l IH]; intros N Hin; [destruct Hin|].
  simpl in N. apply NoDup_cons_iff in N. destruct N as [Nx N]. simpl.
  destruct Hin as [->|Hin].
  - rewrite String.eqb_refl. f_equal.
    apply filter_nil_In. intros y Hy. apply String.eqb_neq.
    intros E. apply Nx. rewrite <- E. now apply in_map.
  - destruct (String.eqb (f x) (f g)) eqn:E; [|now apply IH].
    apply String.eqb_eq in E. exfalso. apply Nx. rewrite E. now apply in_map.
Qed.

Lemma selected_some start_date end_date c r :
  Aggregate.selected start_date end_date (Some c) r
  = Aggregate.selected start_date end_date None r
    && String.eqb (Expense.category r) c.
Proof. unfold Aggregate.selected. now rewrite andb_true_r. Qed.

(** Grouping the rows of one category gives that category's row of the
    grouping of all rows, or nothing. *)
Lemma aggregate_filtered db start_date end_date c :
  Aggregate.aggregate_range db start_date end_date (Some c)
  = filter (fun g => String.eqb (Group.category g) c)
      (Aggregate.aggregate_range db start_date end_date None).
Proof.
  set (M := filter (Aggregate.selected start_date end_date None) (rows db)).
  set (Mc := filter (Aggregate.selected start_date end_date (Some c)) (rows db)).
  assert (EM : Mc = Aggregate.members M c).
  { unfold Mc, M, Aggregate.members. rewrite filter_filter_and.
    apply filter_ext. intros r. apply selected_some. }
  assert (Hall : forall r, In r Mc -> Expense.category r = c).
  { intros r Hr. rewrite EM in Hr. now apply AggregateFacts.members_In in Hr. }
  assert (ER : Aggregate.group_row Mc c = Aggregate.group_row M c).
  { unfold Aggregate.group_row.
    assert (E : Aggregate.members Mc c = Aggregate.members M c).
    { rewrite <- EM. unfold Aggregate.members. apply filter_all.
      intros r Hr. apply String.eqb_eq. now apply Hall. }
    now rewrite E. }
  assert (EK : Aggregate.group_keys Mc = match Mc with [] => [] | _ => [c] end).
  { unfold Aggregate.group_keys. rewrite (nodup_constant c).
    - destruct Mc; reflexivity.
    - intros x Hx. apply in_map_iff in Hx. destruct Hx as (r & <- & Hr).
      now apply Hall. }
  unfold Aggregate.aggregate_range at 1. fold Mc. rewrite EK.
  destruct Mc as [|r0 Mc'] eqn:EMc.
  - simpl. symmetry. apply filter_nil_In. intros g Hg.
    apply AggregateFacts.aggregate_In in Hg. destruct Hg as (k & Hk & ->).
    fold M in Hk. simpl. apply String.eqb_neq. intros ->.
    apply AggregateFacts.group_keys_In in Hk. destruct Hk as (r & Hr & Hc).
    assert (Hin : In r (Aggregate.members M c))
      by (apply AggregateFacts.members_In; auto).
    rewrite <- EM in Hin. destruct Hin.
  - simpl. rewrite ER.
    assert (Hin : In (Aggregate.group_row M c)
                    (Aggregate.aggregate_range db start_date end_date None)).
    { apply AggregateFacts.aggregate_In. exists c. fold M. split; [|reflexivity].
      apply AggregateFacts.group_keys_In. exists r0.
      assert (H0 : In r0 (Aggregate.members M c))
        by (rewrite <- EM; now left).
      now apply AggregateFacts.members_In in H0. }
    symmetry.
    apply (NoDup_filter_single Group.category _ _) in Hin.
    + exact Hin.
    + eapply Permutation_NoDup.
      * symmetry. apply AggregateFacts.aggregate_categories.
      * apply AggregateFacts.group_keys_NoDup.
Qed.

Lemma py_sum_from_inl items : forall acc total,
  Py.sum_from acc items = inl total ->
  Forall (fun o => exists t : float, o = Some t) items.
Proof.
  induction items as [|o items IH]; intros acc total H; [constructor|].
  simpl in H. destruct o as [f|]; simpl in H; [|discriminate].
  constructor; [eauto|]. eapply IH; eauto.
Qed.

(** X12. A category filter selects a row of the summary: when
    [summarize] succeeds without a filter, it succeeds for a category that
    is not empty with the rows of that category taken from the unfiltered
    summary, which is at most one row, and the total is the sum over it. *)
Theorem summarize_filter_selects_row
    db start_date end_date c period total summary :
  summarize db start_date end_date None
    = Summarized period total summary ->
  c <> "" ->
  exists total_c,
    summarize db start_date end_date (Some c)
      = Summarized period total_c
          (filter (fun g => String.eqb (Group.category g) c) summary) /\
    Py.sum (map Group.total_amount
              (filter (fun g => String.eqb (Group.category g) c) summary))
      = inl total_c /\
    (List.length
       (filter (fun g => String.eqb (Group.category g) c) summary) <= 1)%nat.
Proof.
  intros HS Hc.
  destruct (summarize_inv _ _ _ _ _ _ _ HS) as (Hs & He & E & Ht).
  simpl in E.
  assert (Hp : period = start_date ++ " to " ++ end_date).
  { rewrite (summarize_valid _ _ _ _ Hs He) in HS. simpl in HS.
    destruct (Py.sum _); [|discriminate]. now injection HS. }
  assert (T : truthy (Some c) = Some c)
    by (destruct c; [now elim Hc | reflexivity]).
  rewrite (summarize_valid _ _ _ _ Hs He), T, aggregate_filtered, <- E.
  set (S' := filter (fun g => String.eqb (Group.category g) c) summary).
  destruct (AggregateFacts.py_sum_from_numbers
              (map Group.total_amount S') (PyInt 0)) as [tc Htc].
  { apply Forall_map. apply py_sum_from_inl in Ht.
    rewrite Forall_map in Ht. rewrite Forall_forall in *.
    intros g Hg. apply Ht. unfold S' in Hg. now apply filter_In in Hg. }
  exists tc. unfold Py.sum. rewrite Htc, Hp. repeat split.
  unfold S'. rewrite E, <- aggregate_filtered.
  unfold Aggregate.aggregate_range.
  rewrite (Permutation_length (OrderFacts.order_by_desc_perm _ _)).
  rewrite length_map.
  set (Mc := filter _ (rows db)).
  assert (EK : Aggregate.group_keys Mc = match Mc with [] => [] | _ => [c] end).
  { unfold Aggregate.group_keys. rewrite (nodup_constant c).
    - destruct Mc; reflexivity.
    - intros x Hx. apply in_map_iff in Hx. destruct Hx as (r & <- & Hr).
      unfold Mc in Hr. apply filter_In in Hr. destruct Hr as [_ Hr].
      rewrite selected_some in Hr. apply andb_true_iff in Hr.
      now apply String.eqb_eq. }
  rewrite EK. destruct Mc; simpl; lia.
Qed.

Lemma summarize_filter_selects_row_witness :
  exists total summary,
    summarize jan_store "2024-01-01" "2024-01-31" (Some "Food")
    = Summarized "2024-01-01 to 2024-01-31" total summary /\
    map Group.category summary = ["Food"].
Proof.
  destruct (summarize_filter_selects_row jan_store
              "2024-01-01" "2024-01-31" "Food"
              "2024-01-01 to 2024-01-31" (PyFloat 35%float)
              (Aggregate.aggregate_range jan_store
                 "2024-01-01" "2024-01-31" None))
    as (total & H & _); [reflexivity | discriminate |].
  eexists. eexists. split; [exact H | reflexivity].
Defined.

(** *** Adding and summarizing *)






